(** * Orchestration of one training run ([ml_training/train.py])

    A shallow embedding of [train] and [main]: the script's own control flow
    (channel derivation, record naming, name-to-function lookup, checkpoint
    clearing, evaluation and relocation) is translated from the source; the
    classes and helpers it imports from sibling modules ([Config],
    [DataHolder], [DFN], [Trainer], [util], [plot.util]) and from TensorFlow
    and NumPy are an interface ([Externals]) over which the theorems
    quantify. *)

From stdpp Require Import gmap strings list fin_maps pretty.
From Stdlib Require Import ZArith.
From Corelib Require Import PrimFloat SpecFloat FloatOps.

Set Warnings "-register-all,-inexact-float".
Set Default Proof Using "Type".

Open Scope Z_scope.

(** ** Exceptions *)

(** The exceptions a run can end with.  [OSError] stands for the whole family
    raised by failing file operations ([FileNotFoundError],
    [NotADirectoryError], [FileExistsError]); the others are the spec's
    taxonomy for what the imported components raise. *)
Inductive exn :=
  | KeyError (key : string)
  | OSError (p : list string)
  | ShutilError (p : list string)
  | ConfigurationError (msg : string)
  | DataError (msg : string)
  | ValueError (msg : string)
  | TrainingFailure (msg : string).

(** ** Filesystem *)

Module Fs.

(** What a regular file holds, as far as a run can tell files apart. *)
Inductive content :=
  | Blob (s : string)
  | TFRecords (height width channels : Z) (samples : nat)
  | Snapshot (step : Z)
  | Plot (classes : list string).

(** A directory tree; a directory maps entry names to nodes. *)
Inductive node :=
  | File (c : content)
  | Dir (es : gmap string node).

(** Normalised absolute paths are lists of components, the root is [[]]. *)
Definition path := list string.

(** A path name as the program writes it: relative to the working directory,
    or absolute. *)
Inductive pathname :=
  | Rel (p : path)
  | Abs (p : path).

Definition resolve (cwd : path) (pn : pathname) : path :=
  match pn with
  | Rel p => cwd ++ p
  | Abs p => p
  end.

(** [os.path.dirname] of a normalised absolute path ([dirname "/" = "/"]). *)
Definition dirname (p : path) : path := removelast p.

(** [os.path.join(d, name)] for an absolute directory [d] and one component. *)
Definition join (d : path) (name : string) : pathname := Abs (d ++ [name]).

Definition basename (p : path) : string := default "" (last p).

Fixpoint find (p : path) (n : node) : option node :=
  match p with
  | [] => Some n
  | c :: p' =>
      match n with
      | File _ => None
      | Dir es =>
          match es !! c with
          | Some n' => find p' n'
          | None => None
          end
      end
  end.

(** [os.path.exists] and [os.path.isdir]. *)
Definition exists_ (p : path) (r : node) : bool :=
  match find p r with Some _ => true | None => false end.

Definition isdir (p : path) (r : node) : bool :=
  match find p r with Some (Dir _) => true | _ => false end.

(** Unlink the entry at [p] with everything below it. *)
Fixpoint remove (p : path) (n : node) : node :=
  match p with
  | [] => n
  | c :: p' =>
      match n with
      | File _ => n
      | Dir es =>
          match p' with
          | [] => Dir (delete c es)
          | _ :: _ => Dir (alter (remove p') c es)
          end
      end
  end.

(** Bind [x] at [p].  With [mk] the missing directories on the way are
    created ([os.makedirs]); a regular file on the way always fails. *)
Fixpoint place (mk : bool) (p : path) (x : node) (n : node) : option node :=
  match p with
  | [] => None
  | c :: p' =>
      match n with
      | File _ => None
      | Dir es =>
          match p' with
          | [] => Some (Dir (<[c := x]> es))
          | _ :: _ =>
              match es !! c with
              | Some n' =>
                  match place mk p' x n' with
                  | Some n'' => Some (Dir (<[c := n'']> es))
                  | None => None
                  end
              | None =>
                  if mk then
                    match place mk p' x (Dir ∅) with
                    | Some n'' => Some (Dir (<[c := n'']> es))
                    | None => None
                    end
                  else None
              end
          end
      end
  end.

(** [shutil.rmtree(p)]: [p] must be a directory. *)
Definition rmtree (p : path) (r : node) : exn + node :=
  match find p r with
  | Some (Dir _) => inr (remove p r)
  | _ => inl (OSError p)
  end.

(** [os.rename(src, d)] for a [d] that does not exist, with the fallback of
    [shutil.move] when the rename fails: a directory cannot be moved below
    itself; a directory is copied with [copytree], which creates missing
    parents, a regular file with [copy2], which does not. *)
Definition rename_into (src d : path) (r : node) : exn + node :=
  match find src r with
  | None => inl (OSError src)
  | Some x =>
      if bool_decide (src `prefix_of` d) then
        inl (match x with Dir _ => ShutilError d | File _ => OSError d end)
      else
        match place (match x with Dir _ => true | File _ => false end)
                    d x (remove src r) with
        | Some r' => inr r'
        | None => inl (OSError d)
        end
  end.

(** [shutil.move(src, dst)].  An existing directory [dst] receives [src]
    under its own base name, unless that entry exists already; [src] and
    [dst] naming the same directory is a rename onto itself. *)
Definition move (src dst : path) (r : node) : exn + node :=
  match find dst r with
  | Some (Dir _) =>
      if bool_decide (src = dst) then inr r
      else
        let real_dst := dst ++ [basename src] in
        if exists_ real_dst r then inl (ShutilError real_dst)
        else rename_into src real_dst r
  | Some (File _) =>
      match find src r with
      | None => inl (OSError src)
      | Some (Dir _) => inl (OSError dst)
      | Some (File c) =>
          if bool_decide (src = dst) then inr r
          else
            match place false dst (File c) (remove src r) with
            | Some r' => inr r'
            | None => inl (OSError dst)
            end
      end
  | None => rename_into src dst r
  end.

End Fs.


(** ** Values the script hands to the components *)

(** The optimizer classes of [optimizer_dict] and the activation functions of
    [activations_dict]. *)
Inductive optimizer_cls :=
  | GradientDescentOptimizer
  | AdadeltaOptimizer
  | AdagradOptimizer
  | AdamOptimizer
  | FtrlOptimizer
  | ProximalGradientDescentOptimizer
  | ProximalAdagradOptimizer
  | RMSPropOptimizer.

Inductive activation_fn := relu | sigmoid | tanh.

(** The keyword arguments of the [Config(...)] call in [train]. *)
Record ConfigKw := {
  height : Z;
  width : Z;
  channels : Z;
  architecture : list Z;
  activations : option (list activation_fn);
  batch_size : Z;
  epochs : Z;
  num_steps : Z;
  save_step : Z;
  learning_rate : float;
  optimizer : optimizer_cls
}.

(** The namespace [parser.parse_args()] returns; [args.mode a] reads as the
    source's [args.mode]. *)
Module args.
Record Namespace := {
  mode : string;
  height : Z;
  width : Z;
  architecture : list Z;
  activations : option (list string);
  batch_size : Z;
  epochs : Z;
  num_steps : Z;
  save_step : Z;
  learning_rate : float;
  optimizer : string;
  verbose : bool;
  name : string;
  move : bool
}.
End args.

(** The namespace of an invocation without flags: every [default=] of the
    parser. *)
Definition default_args : args.Namespace := {|
  args.mode := "bin";
  args.height := 90;
  args.width := 160;
  args.architecture := [4];
  args.activations := None;
  args.batch_size := 32;
  args.epochs := 5;
  args.num_steps := 1000;
  args.save_step := 100;
  args.learning_rate := 0.02%float;
  args.optimizer := "GradientDescent";
  args.verbose := false;
  args.name := "Confusion_Matrix";
  args.move := false
|}.

(** ** Effects *)

(** What the script does to the outside, in the order it does it: one event
    per call, with the arguments that are plain data. *)
Inductive event :=
  | EvExists (p : Fs.pathname)
  | EvRmtree (p : Fs.pathname)
  | EvConfig (kw : ConfigKw)
  | EvDataHolder (records : list string)
  | EvGraph
  | EvDFN
  | EvTrainer
  | EvPrint (s : string)
  | EvGetStatus
  | EvFit (verbose : bool)
  | EvGetValid
  | EvReconstruct (record : string)
  | EvPredict
  | EvPlotConfusion (file : string) (classes : list string)
  | EvMove (src dst : Fs.pathname).

(** The process and its surroundings: the directory tree, the working
    directory, and the state [S] the components keep to themselves (graphs,
    sessions, objects). *)
Record World (S : Type) := mkWorld {
  fs : Fs.node;
  cwd : Fs.path;
  ext : S
}.
Arguments mkWorld {S} _ _ _.
Arguments fs {S} _.
Arguments cwd {S} _.
Arguments ext {S} _.

Definition with_fs {S} (w : World S) (r : Fs.node) : World S :=
  mkWorld r (cwd w) (ext w).

(** A call returns or raises; either way the world is what the call left. *)
Inductive outcome (A W : Type) :=
  | Done (a : A) (w : W)
  | Raised (e : exn) (w : W).
Arguments Done {A W} _ _.
Arguments Raised {A W} _ _.

Definition final {A W} (o : outcome A W) : W :=
  match o with Done _ w => w | Raised _ w => w end.

Definition Call (S A : Type) : Type := World S → outcome A (World S).

(** The state of a run: the world and the events so far, oldest first. *)
Record State (S : Type) := mkState {
  world : World S;
  trace : list event
}.
Arguments mkState {S} _ _.
Arguments world {S} _.
Arguments trace {S} _.

Definition M (S A : Type) : Type := State S → outcome A (State S).

(** [M S] is a state-and-exception monad; the instances give it stdpp's
    [x ← m; k] and [m;; k]. *)
#[global] Instance M_ret {S} : MRet (M S) := λ A a st, Done a st.

#[global] Instance M_bind {S} : MBind (M S) :=
  λ A B k m st,
    match m st with
    | Done a st' => k a st'
    | Raised e st' => Raised e st'
    end.

Definition raise {S A} (e : exn) : M S A := λ st, Raised e st.

(** Log the event, then make the call. *)
Definition call {S A} (ev : event) (op : Call S A) : M S A :=
  λ st, match op (world st) with
        | Done a w => Done a (mkState w (trace st ++ [ev]))
        | Raised e w => Raised e (mkState w (trace st ++ [ev]))
        end.

(** A computation without effects that may raise. *)
Definition lift {S A} (r : exn + A) : M S A :=
  match r with
  | inl e => raise e
  | inr a => mret a
  end.

(** A file operation of the standard library as a call. *)
Definition fs_call {S} (f : Fs.path → Fs.node → exn + Fs.node)
    (pn : Fs.pathname) : Call S unit :=
  λ w, match f (Fs.resolve (cwd w) pn) (fs w) with
       | inr r => Done tt (with_fs w r)
       | inl e => Raised e w
       end.

Definition os_path_exists {S} (pn : Fs.pathname) : M S bool :=
  call (EvExists pn) (λ w, Done (Fs.exists_ (Fs.resolve (cwd w) pn) (fs w)) w).

Definition shutil_rmtree {S} (pn : Fs.pathname) : M S unit :=
  call (EvRmtree pn) (fs_call Fs.rmtree pn).

Definition shutil_move {S} (src dst : Fs.pathname) : M S unit :=
  call (EvMove src dst)
       (λ w, fs_call (λ s, Fs.move s (Fs.resolve (cwd w) dst)) src w).

Definition print {S} (s : string) : M S unit :=
  call (EvPrint s) (λ w, Done tt w).

(** ** The imported components *)

(** What [train] imports and calls: the classes of the sibling modules, the
    helpers of [util] and [plot.util], [tf.Graph] and the two NumPy
    expressions of the evaluation block.  Each call may change the world and
    may raise. *)
Record Externals := {
  ext_state : Type;
  ConfigT : Type;
  DataHolderT : Type;
  GraphT : Type;
  DFNT : Type;
  TrainerT : Type;
  ndarray : Type;
  Int2Command : Type;
  Config : ConfigKw → Call ext_state ConfigT;
  get_status : ConfigT → Call ext_state string;
  DataHolder : ConfigT → list string → Call ext_state DataHolderT;
  get_valid_tfrecord : DataHolderT → Call ext_state string;
  tf_Graph : Call ext_state GraphT;
  DFN : GraphT → ConfigT → Call ext_state DFNT;
  Trainer : GraphT → ConfigT → DFNT → DataHolderT → Call ext_state TrainerT;
  fit : TrainerT → bool → Call ext_state unit;
  predict : TrainerT → ndarray → Call ext_state ndarray;
  reconstruct_from_record : string → Call ext_state (ndarray * ndarray * ndarray);
  (** [a.astype(np.float32) / 255] *)
  astype_float32_div : ndarray → Z → ndarray;
  (** [a.reshape((a.shape[0],))] *)
  reshape_rows : ndarray → exn + ndarray;
  int2command : Int2Command;
  plotconfusion :
    ndarray → ndarray → string → Int2Command → list string → Call ext_state unit
}.

(** ** The script *)

Definition nl : string := String (Ascii.ascii_of_nat 10) "".

(** ["\nTraining in the {} data\n".format(mode)] *)
Definition training_line (mode : string) : string :=
  nl +:+ "Training in the " +:+ mode +:+ " data" +:+ nl.

(** ["params:\n{}\n".format(status)] *)
Definition params_line (status : string) : string :=
  "params:" +:+ nl +:+ status +:+ nl.

Definition checkpoints : Fs.pathname := Fs.Rel ["checkpoints"].

Definition classes : list string := ["left"; "right"; "up"].

(** The dictionaries of [main]. *)
Definition optimizer_dict : gmap string optimizer_cls :=
  list_to_map
    [("GradientDescent", GradientDescentOptimizer);
     ("Adadelta", AdadeltaOptimizer);
     ("Adagrad", AdagradOptimizer);
     ("Adam", AdamOptimizer);
     ("Ftrl", FtrlOptimizer);
     ("ProximalGradientDescent", ProximalGradientDescentOptimizer);
     ("ProximalAdagrad", ProximalAdagradOptimizer);
     ("RMSProp", RMSPropOptimizer)].

Definition activations_dict : gmap string activation_fn :=
  list_to_map [("relu", relu); ("sigmoid", sigmoid); ("tanh", tanh)].

(** [d[k]]: a missing key raises [KeyError]. *)
Definition getitem {S V} (d : gmap string V) (k : string) : M S V :=
  match d !! k with
  | Some v => mret v
  | None => raise (KeyError k)
  end.

(** [[f(x) for x in xs]]: the elements in order, the first failure ends it. *)
Fixpoint comprehension {S A B} (f : A → M S B) (xs : list A) : M S (list B) :=
  match xs with
  | [] => mret []
  | x :: xs' => y ← f x; ys ← comprehension f xs'; mret (y :: ys)
  end.

(** Lines 216-219 of [main]. *)
Definition channels_of_mode (mode : string) : Z :=
  if String.eqb mode "bin" || String.eqb mode "gray" || String.eqb mode "green"
  then 1 else 3.

(** Lines 220-224 of [main]: the loop appends [mode + record] for each suffix. *)
Definition records : list string :=
  ["_train.tfrecords"; "_valid.tfrecords"; "_test.tfrecords"].

Definition new_records (mode : string) : list string :=
  foldl (λ acc record, acc ++ [mode +:+ record]) [] records.

Section script.
Context (X : Externals).

(** [almost_current]: the absolute path of [train.py], from which the module
    computes [currentdir] and [parentdir] when it is loaded. *)
Variable almost_current : Fs.path.

Definition currentdir : Fs.path := Fs.dirname almost_current.
Definition parentdir : Fs.path := Fs.dirname currentdir.

Local Abbreviation M := (M (ext_state X)).

(** Lines 85-86. *)
Definition clear_checkpoints : M unit :=
  b ← os_path_exists checkpoints;
  if b : bool then shutil_rmtree checkpoints else mret tt.

(** Lines 109-114. *)
Definition evaluate (verbose : bool) (name : string)
    (data : DataHolderT X) (trainer : TrainerT X) : M unit :=
  if verbose then
    record ← call EvGetValid (get_valid_tfrecord X data);
    '(valid_images, valid_labels, _) ←
      call (EvReconstruct record) (reconstruct_from_record X record);
    let valid_images := astype_float32_div X valid_images 255 in
    valid_pred ← call EvPredict (predict X trainer valid_images);
    valid_labels ← lift (reshape_rows X valid_labels);
    call (EvPlotConfusion (name +:+ ".png") classes)
         (plotconfusion X valid_labels valid_pred (name +:+ ".png")
                        (int2command X) classes)
  else mret tt.

(** Lines 115-117. *)
Definition relocate (move : bool) : M unit :=
  if move then
    let dst := Fs.join parentdir "checkpoints" in
    shutil_move checkpoints dst
  else mret tt.

(** Lines 88-108: the components are built, the configuration is printed,
    the trainer is fitted. *)
Definition build_and_fit (mode : string) (records : list string)
    (kw : ConfigKw) (verbose : bool) : M (DataHolderT X * TrainerT X) :=
  config ← call (EvConfig kw) (Config X kw);
  data ← call (EvDataHolder records) (DataHolder X config records);
  graph ← call EvGraph (tf_Graph X);
  network ← call EvDFN (DFN X graph config);
  trainer ← call EvTrainer (Trainer X graph config network data);
  print (training_line mode);;
  status ← call EvGetStatus (get_status X config);
  print (params_line status);;
  call (EvFit verbose) (fit X trainer verbose);;
  mret (data, trainer).

(** Lines 88-117: what [train] does once the old checkpoints are out of the
    way. *)
Definition proceed (mode : string) (records : list string) (kw : ConfigKw)
    (verbose : bool) (name : string) (move : bool) : M unit :=
  '(data, trainer) ← build_and_fit mode records kw verbose;
  evaluate verbose name data trainer;;
  relocate move.

Definition train (mode : string) (records : list string)
    (height width channels : Z) (architecture : list Z)
    (activations : option (list activation_fn))
    (batch_size epochs num_steps save_step : Z) (learning_rate : float)
    (optimizer : optimizer_cls) (verbose : bool) (name : string)
    (move : bool) : M unit :=
  clear_checkpoints;;
  proceed mode records
    {| height := height; width := width; channels := channels;
       architecture := architecture; activations := activations;
       batch_size := batch_size; epochs := epochs;
       num_steps := num_steps; save_step := save_step;
       learning_rate := learning_rate; optimizer := optimizer |}
    verbose name move.

(** [main] after [parser.parse_args()] has returned [a]. *)
Definition main (a : args.Namespace) : M unit :=
  let channels := channels_of_mode (args.mode a) in
  let new_records := new_records (args.mode a) in
  activations ←
    match args.activations a with
    | Some names =>
        fns ← comprehension (getitem activations_dict) names; mret (Some fns)
    | None => mret None
    end;
  optimizer ← getitem optimizer_dict (args.optimizer a);
  train (args.mode a) new_records (args.height a) (args.width a) channels
        (args.architecture a) activations (args.batch_size a)
        (args.epochs a) (args.num_steps a) (args.save_step a)
        (args.learning_rate a) optimizer (args.verbose a) (args.name a)
        (args.move a).

(** A run from a world, with nothing logged yet. *)
Definition run {A} (m : M A) (w : World (ext_state X)) :
    outcome A (State (ext_state X)) :=
  m (mkState w []).

End script.

(** ** The components as the specification describes them

    The sibling modules are not part of the script.  [Spec.externals] is one
    implementation of [Externals] that follows the specification's contracts
    (sections 3, 4, 6, 7 and 8); the theorems hold for every implementation, and
    runs are evaluated on this one. *)

Module Spec.

Record SpecState := {
  graphs : nat;
  fitted : list nat
}.

Inductive dtype := uint8 | int64 | float32.

(** An array as far as its element type and shape. *)
Record array := {
  a_dtype : dtype;
  a_shape : list Z
}.

Record DataHolderObj := {
  dh_config : ConfigKw;
  train_record : string;
  valid_record : string;
  test_record : string
}.

Record DFNObj := {
  net_graph : nat;
  net_config : ConfigKw
}.

Record TrainerObj := {
  tr_graph : nat;
  tr_config : ConfigKw;
  tr_network : DFNObj;
  tr_data : DataHolderObj
}.

Local Abbreviation Call := (Call SpecState).

(** A file name as the components receive it: split at the slashes, absolute
    when it starts with one. *)
Fixpoint split_slash (s : string) : list string :=
  match s with
  | EmptyString => [""]
  | String c s' =>
      if String.eqb (String c "") "/" then "" :: split_slash s'
      else match split_slash s' with
           | [] => [String c ""]
           | x :: xs => String c x :: xs
           end
  end.

Definition parse_path (s : string) : Fs.pathname :=
  let cs := filter (λ c, c ≠ "") (split_slash s) in
  match s with
  | String c _ => if String.eqb (String c "") "/" then Fs.Abs cs else Fs.Rel cs
  | EmptyString => Fs.Rel cs
  end.

Definition positive_fields (kw : ConfigKw) : bool :=
  forallb (Z.ltb 0)
    [height kw; width kw; channels kw; batch_size kw; epochs kw;
     num_steps kw; save_step kw].

(** Modelled from the spec: the number of label classes (section 3: left,
    right, up). *)
Definition label_classes : Z := 3.

(** Modelled from the spec: section 3, [architecture] is a sequence of
    positive integers whose last element is the number of classes; section 8,
    a final layer width that disagrees with the label space is rejected. *)
Definition valid_architecture (arch : list Z) : bool :=
  forallb (Z.ltb 0) arch && bool_decide (last arch = Some label_classes).

(** Modelled from the spec: the constructor of [Config] (module [Config] is
    not in the script).  Section 4.1: fails (construction error) if any
    integer field is non-positive or [architecture] is empty; no other side
    effect.  Section 3: the entries of [architecture] are positive and the
    last one must equal 3; section 8: a final layer width that disagrees
    with the label space must be rejected.  The object is the frozen record
    of its keyword values. *)
Definition Config (kw : ConfigKw) : Call ConfigKw :=
  λ w, if positive_fields kw && negb (bool_decide (architecture kw = []))
       then if valid_architecture (architecture kw)
            then Done kw w
            else Raised (ConfigurationError
                           "layer widths disagree with the label space") w
       else Raised (ConfigurationError "non-positive field or empty architecture") w.

Definition show_list {A} (f : A → string) (l : list A) : string :=
  "[" +:+ String.concat ", " (f <$> l) +:+ "]".

Definition show_float (x : float) : string :=
  match FloatOps.Prim2SF x with
  | SpecFloat.S754_zero _ => "0"
  | SpecFloat.S754_infinity s => if s then "-inf" else "inf"
  | SpecFloat.S754_nan => "nan"
  | SpecFloat.S754_finite s m e =>
      (if s then "-" else "") +:+ pretty (Z.pos m) +:+ "*2^" +:+ pretty e
  end.

Definition show_activation (f : activation_fn) : string :=
  match f with relu => "relu" | sigmoid => "sigmoid" | tanh => "tanh" end.

Definition show_optimizer (o : optimizer_cls) : string :=
  match o with
  | GradientDescentOptimizer => "GradientDescent"
  | AdadeltaOptimizer => "Adadelta"
  | AdagradOptimizer => "Adagrad"
  | AdamOptimizer => "Adam"
  | FtrlOptimizer => "Ftrl"
  | ProximalGradientDescentOptimizer => "ProximalGradientDescent"
  | ProximalAdagradOptimizer => "ProximalAdagrad"
  | RMSPropOptimizer => "RMSProp"
  end.

(** Modelled from the spec: [Config.get_status] (not in the script).  Section
    4.1: a read-only, human-readable dump of all fields. *)
Definition get_status (c : ConfigKw) : Call string :=
  λ w, Done
    (String.concat nl
       ["height = " +:+ pretty (height c);
        "width = " +:+ pretty (width c);
        "channels = " +:+ pretty (channels c);
        "architecture = " +:+ show_list pretty (architecture c);
        "activations = " +:+
          match activations c with
          | Some l => show_list show_activation l
          | None => "None"
          end;
        "batch_size = " +:+ pretty (batch_size c);
        "epochs = " +:+ pretty (epochs c);
        "num_steps = " +:+ pretty (num_steps c);
        "save_step = " +:+ pretty (save_step c);
        "learning_rate = " +:+ show_float (learning_rate c);
        "optimizer = " +:+ show_optimizer (optimizer c)])
    w.

(** Modelled from the spec: the constructor of [DataHolder] (not in the
    script).  Section 4.2: given a Config and three record identifiers, binds
    each to a lazy sequence of samples; a source is opened at first access
    (section 7), not here.  The specification does not say what another
    number of identifiers does; it is taken as a data error. *)
Definition DataHolder (c : ConfigKw) (records : list string) : Call DataHolderObj :=
  λ w, match records with
       | [tr; va; te] =>
           Done {| dh_config := c; train_record := tr;
                   valid_record := va; test_record := te |} w
       | _ => Raised (DataError "three record sources are expected") w
       end.

(** Modelled from the spec: [DataHolder.get_valid_tfrecord] (not in the
    script).  Section 4.2: exposes the raw validation source. *)
Definition get_valid_tfrecord (d : DataHolderObj) : Call string :=
  λ w, Done (valid_record d) w.

(** [tf.Graph()]: a fresh graph. *)
Definition tf_Graph : Call nat :=
  λ w, Done (graphs (ext w))
            (mkWorld (fs w) (cwd w)
               {| graphs := S (graphs (ext w)); fitted := fitted (ext w) |}).

(** Modelled from the spec: the constructor of [DFN] (not in the script).
    Section 4.3: fails (construction error) if [activations] is provided and
    its length is not [len(architecture) - 1]. *)
Definition DFN (g : nat) (c : ConfigKw) : Call DFNObj :=
  λ w, match activations c with
       | Some acts =>
           if bool_decide (Z.of_nat (length acts)
                           = Z.of_nat (length (architecture c)) - 1)
           then Done {| net_graph := g; net_config := c |} w
           else Raised (ConfigurationError "activations do not match architecture") w
       | None => Done {| net_graph := g; net_config := c |} w
       end.

(** Modelled from the spec: the constructor of [Trainer] (not in the script).
    Section 4.4 names no failure of the construction. *)
Definition Trainer (g : nat) (c : ConfigKw) (n : DFNObj) (d : DataHolderObj) :
    Call TrainerObj :=
  λ w, Done {| tr_graph := g; tr_config := c; tr_network := n; tr_data := d |} w.

(** Opening a record source: section 4.2 and 7, a data error if it cannot be
    opened or its samples disagree with the declared shape. *)
Definition open_record (c : ConfigKw) (record : string) (w : World SpecState) :
    exn + nat :=
  match Fs.find (Fs.resolve (cwd w) (parse_path record)) (fs w) with
  | Some (Fs.File (Fs.TFRecords h wd ch n)) =>
      if bool_decide (h = height c ∧ wd = width c ∧ ch = channels c)
      then inr n
      else inl (DataError "sample shape disagrees with the configuration")
  | _ => inl (DataError "record source cannot be opened")
  end.

(** The global steps at which parameters are saved: the positive multiples of
    [save_step] up to [epochs * num_steps] (section 4.4, step 2). *)
Definition save_points (c : ConfigKw) : list Z :=
  (λ i : nat, (Z.of_nat i + 1) * save_step c)
    <$> seq 0 (Z.to_nat (epochs c * num_steps c / save_step c)).

Definition snapshots (c : ConfigKw) : gmap string Fs.node :=
  list_to_map ((λ s, ("model-" +:+ pretty s, Fs.File (Fs.Snapshot s)))
                 <$> save_points c).

(** Modelled from the spec: [Trainer.fit] (not in the script).  Section 4.4:
    single use, a second [fit] on the same instance fails; batches are drawn
    from the training source, and with [verbose] the validation source is
    read at epoch boundaries; parameters are saved to the directory
    [checkpoints/] (section 6) at every [save_step] completed steps.  An
    existing directory keeps the entries a run does not overwrite. *)
Definition fit (t : TrainerObj) (verbose : bool) : Call unit :=
  λ w,
    if bool_decide (tr_graph t ∈ fitted (ext w)) then
      Raised (TrainingFailure "fit invoked twice") w
    else
      match open_record (tr_config t) (train_record (tr_data t)) w,
            (if verbose
             then open_record (tr_config t) (valid_record (tr_data t)) w
             else inr 0%nat) with
      | inl e, _ | _, inl e => Raised e w
      | inr _, inr _ =>
          let dir := cwd w ++ ["checkpoints"] in
          let old :=
            match Fs.find dir (fs w) with
            | Some (Fs.Dir es) => Some es
            | Some (Fs.File _) => None
            | None => Some ∅
            end in
          match old with
          | None => Raised (OSError dir) w
          | Some es =>
              match Fs.place true dir (Fs.Dir (snapshots (tr_config t) ∪ es)) (fs w) with
              | Some r =>
                  Done tt (mkWorld r (cwd w)
                             {| graphs := graphs (ext w);
                                fitted := tr_graph t :: fitted (ext w) |})
              | None => Raised (OSError dir) w
              end
          end
      end.

(** Modelled from the spec: [Trainer.predict] (not in the script).  Section
    4.4: valid once fitted; one class id per sample. *)
Definition predict (t : TrainerObj) (images : array) : Call array :=
  λ w, if bool_decide (tr_graph t ∈ fitted (ext w))
       then Done {| a_dtype := int64; a_shape := take 1 (a_shape images) |} w
       else Raised (TrainingFailure "predict before fit") w.

(** Modelled from the spec: [util.reconstruct_from_record] (not in the
    script).  Section 4.2: the whole validation source, images and labels; a
    source that cannot be opened is a data error. *)
Definition reconstruct_from_record (record : string) :
    Call (array * array * array) :=
  λ w, match Fs.find (Fs.resolve (cwd w) (parse_path record)) (fs w) with
       | Some (Fs.File (Fs.TFRecords h wd ch n)) =>
           Done ({| a_dtype := uint8; a_shape := [Z.of_nat n; h; wd; ch] |},
                 {| a_dtype := int64; a_shape := [Z.of_nat n; 1] |},
                 {| a_dtype := int64; a_shape := [3] |}) w
       | _ => Raised (DataError "record source cannot be opened") w
       end.

Definition astype_float32_div (a : array) (d : Z) : array :=
  {| a_dtype := float32; a_shape := a_shape a |}.

Definition reshape_rows (a : array) : exn + array :=
  match a_shape a with
  | n :: rest =>
      if bool_decide (foldr Z.mul 1 rest = 1)
      then inr {| a_dtype := a_dtype a; a_shape := [n] |}
      else inl (ValueError "cannot reshape array")
  | [] => inl (ValueError "tuple index out of range")
  end.

(** Modelled from the spec: [plot.util.plotconfusion] (not in the script).
    Section 6: a confusion-matrix image is written to the given file, with
    the given class labels. *)
Definition plotconfusion (labels preds : array) (file : string) (i2c : unit)
    (classes : list string) : Call unit :=
  fs_call (λ p, λ r, match Fs.place false p (Fs.File (Fs.Plot classes)) r with
                     | Some r' => inr r'
                     | None => inl (OSError p)
                     end)
          (parse_path file).

Definition externals : Externals :=
  Build_Externals SpecState ConfigKw DataHolderObj nat DFNObj TrainerObj
    array unit
    Config get_status DataHolder get_valid_tfrecord tf_Graph DFN Trainer
    fit predict reconstruct_from_record astype_float32_div reshape_rows
    tt plotconfusion.

End Spec.

(** ** Worlds to run the script in *)

Module Demo.

(** [train.py] lies in [/home/pi/car/ml_training], which is also the working
    directory, next to the record files. *)
Definition script : Fs.path := ["home"; "pi"; "car"; "ml_training"; "train.py"].

Definition workdir : Fs.path := ["home"; "pi"; "car"; "ml_training"].

Definition tfrecords (channels : Z) : Fs.node :=
  Fs.File (Fs.TFRecords 90 160 channels 64).

(** The files of the working directory; the samples of the [pure] records
    have [pure_channels] channels. *)
Definition files (pure_channels : Z) : gmap string Fs.node :=
  list_to_map
    [("train.py", Fs.File (Fs.Blob "train"));
     ("bin_train.tfrecords", tfrecords 1);
     ("bin_valid.tfrecords", tfrecords 1);
     ("bin_test.tfrecords", tfrecords 1);
     ("pure_train.tfrecords", tfrecords pure_channels);
     ("pure_valid.tfrecords", tfrecords pure_channels);
     ("pure_test.tfrecords", tfrecords pure_channels)].

Definition tree (car : gmap string Fs.node) : Fs.node :=
  Fs.Dir {["home" := Fs.Dir {["pi" := Fs.Dir {["car" := Fs.Dir car]}]}]}.

Definition fresh : Spec.SpecState := {| Spec.graphs := 0; Spec.fitted := [] |}.

(** What an earlier run left. *)
Definition old_run : gmap string Fs.node :=
  {["model-7" := Fs.File (Fs.Snapshot 7)]}.

(** No checkpoints anywhere. *)
Definition world : World Spec.SpecState :=
  mkWorld (tree {["ml_training" := Fs.Dir (files 3)]}) workdir fresh.

(** The [pure] records hold single-channel samples. *)
Definition gray_as_pure_world : World Spec.SpecState :=
  mkWorld (tree {["ml_training" := Fs.Dir (files 1)]}) workdir fresh.

(** An earlier run left [checkpoints/] in the working directory. *)
Definition stale_world : World Spec.SpecState :=
  mkWorld
    (tree {["ml_training" := Fs.Dir (<["checkpoints" := Fs.Dir old_run]> (files 3))]})
    workdir fresh.

(** What this run saved. *)
Definition this_run : gmap string Fs.node :=
  {["model-5" := Fs.File (Fs.Snapshot 5)]}.

(** An earlier run with [--move] left [checkpoints/] one level up, and this
    run has saved to [checkpoints/] in the working directory. *)
Definition both_world : World Spec.SpecState :=
  mkWorld
    (tree (<["checkpoints" := Fs.Dir old_run]>
             {["ml_training" :=
                 Fs.Dir (<["checkpoints" := Fs.Dir this_run]> (files 3))]}))
    workdir fresh.

(** An earlier run with [--move] left [checkpoints/] one level up. *)
Definition moved_world : World Spec.SpecState :=
  mkWorld
    (tree (<["checkpoints" := Fs.Dir old_run]>
             {["ml_training" := Fs.Dir (files 3)]}))
    workdir fresh.

(** A short run on the [bin] records: ten steps, parameters saved every
    five. *)
Definition kw_bin : ConfigKw := {|
  height := 90;
  width := 160;
  channels := 1;
  architecture := [8; 3];
  activations := Some [relu];
  batch_size := 32;
  epochs := 1;
  num_steps := 10;
  save_step := 5;
  learning_rate := 0.02%float;
  optimizer := GradientDescentOptimizer
|}.

Definition train_bin (verbose move : bool) : M Spec.SpecState unit :=
  train Spec.externals script "bin" (new_records "bin") 90 160 1 [8; 3]
        (Some [relu]) 32 1 10 5 0.02%float GradientDescentOptimizer verbose
        "Confusion_Matrix" move.

(** [train] called with [mode="pure"] and one channel. *)
Definition train_pure_1 : M Spec.SpecState unit :=
  train Spec.externals script "pure" (new_records "pure") 90 160 1 [8; 3]
        (Some [relu]) 32 1 10 5 0.02%float GradientDescentOptimizer false
        "Confusion_Matrix" false.

(** [train] called with a height of zero. *)
Definition train_flat : M Spec.SpecState unit :=
  train Spec.externals script "bin" (new_records "bin") 0 160 1 [8; 3]
        (Some [relu]) 32 1 10 5 0.02%float GradientDescentOptimizer false
        "Confusion_Matrix" false.

(** The keyword arguments [main] hands to [train] and [train] to [Config]. *)
Definition config_of (a : args.Namespace)
    (activations : option (list activation_fn)) (optimizer : optimizer_cls) :
    ConfigKw := {|
  height := args.height a;
  width := args.width a;
  channels := channels_of_mode (args.mode a);
  architecture := args.architecture a;
  activations := activations;
  batch_size := args.batch_size a;
  epochs := args.epochs a;
  num_steps := args.num_steps a;
  save_step := args.save_step a;
  learning_rate := args.learning_rate a;
  optimizer := optimizer
|}.

(** The defaults with [--optimizer SGD]. *)
Definition with_sgd : args.Namespace := {|
  args.mode := args.mode default_args;
  args.height := args.height default_args;
  args.width := args.width default_args;
  args.architecture := args.architecture default_args;
  args.activations := args.activations default_args;
  args.batch_size := args.batch_size default_args;
  args.epochs := args.epochs default_args;
  args.num_steps := args.num_steps default_args;
  args.save_step := args.save_step default_args;
  args.learning_rate := args.learning_rate default_args;
  args.optimizer := "SGD";
  args.verbose := args.verbose default_args;
  args.name := args.name default_args;
  args.move := args.move default_args
|}.

(** [--mode pure --architecture 8 3] *)
Definition with_pure : args.Namespace := {|
  args.mode := "pure";
  args.height := args.height default_args;
  args.width := args.width default_args;
  args.architecture := [8; 3];
  args.activations := args.activations default_args;
  args.batch_size := args.batch_size default_args;
  args.epochs := args.epochs default_args;
  args.num_steps := args.num_steps default_args;
  args.save_step := args.save_step default_args;
  args.learning_rate := args.learning_rate default_args;
  args.optimizer := args.optimizer default_args;
  args.verbose := args.verbose default_args;
  args.name := args.name default_args;
  args.move := args.move default_args
|}.

End Demo.

(** ** Vocabulary of the statements *)

(** The names the command line documents. *)
Definition optimizer_names : list string :=
  ["GradientDescent"; "Adadelta"; "Adagrad"; "Adam"; "Ftrl";
   "ProximalGradientDescent"; "ProximalAdagrad"; "RMSProp"].

Definition activation_names : list string := ["relu"; "sigmoid"; "tanh"].

(** The run returned. *)
Definition completes {A W} (o : outcome A W) : bool :=
  match o with Done _ _ => true | Raised _ _ => false end.

Definition is_fit (e : event) : Prop :=
  match e with EvFit _ => True | _ => False end.

(** The calls of the evaluation block. *)
Definition is_evaluation (e : event) : Prop :=
  match e with
  | EvGetValid | EvReconstruct _ | EvPredict | EvPlotConfusion _ _ => True
  | _ => False
  end.

Definition is_print (e : event) : bool :=
  match e with EvPrint _ => true | _ => false end.

(** A trace without what was printed. *)
Definition unprinted (t : list event) : list event :=
  filter (λ e, is_print e = false) t.

(** Two states, and two outcomes, that differ at most in what was printed. *)
Definition alike {S} (st st' : State S) : Prop :=
  world st = world st' ∧ unprinted (trace st) = unprinted (trace st').

Definition same_but_prints {S A} (o o' : outcome A (State S)) : Prop :=
  match o, o' with
  | Done a st, Done a' st' => a = a' ∧ alike st st'
  | Raised e st, Raised e' st' => e = e' ∧ alike st st'
  | _, _ => False
  end.

Definition respects {S A} (m m' : M S A) : Prop :=
  ∀ st st', alike st st' → same_but_prints (m st) (m' st').

(** The world once [shutil.rmtree("checkpoints")] has returned. *)
Definition cleared {S} (w : World S) : World S :=
  with_fs w (Fs.remove (cwd w ++ ["checkpoints"]) (fs w)).

(** The events of [train] up to the call of [fit], after it, and of a run
    that nothing interrupts. *)
Definition events_before_fit (mode : string) (records : list string)
    (kw : ConfigKw) (cleared : bool) (status : string) : list event :=
  [EvExists checkpoints] ++
  (if cleared then [EvRmtree checkpoints] else []) ++
  [EvConfig kw; EvDataHolder records; EvGraph; EvDFN; EvTrainer;
   EvPrint (training_line mode); EvGetStatus; EvPrint (params_line status)].

Definition events_after_fit (almost_current : Fs.path) (verbose : bool)
    (name : string) (move : bool) (record : string) : list event :=
  (if verbose
   then [EvGetValid; EvReconstruct record; EvPredict;
         EvPlotConfusion (name +:+ ".png") classes]
   else []) ++
  (if move
   then [EvMove checkpoints (Fs.join (parentdir almost_current) "checkpoints")]
   else []).

Definition script_trace (almost_current : Fs.path) (mode : string)
    (records : list string) (kw : ConfigKw) (verbose : bool) (name : string)
    (move : bool) (cleared : bool) (status record : string) : list event :=
  events_before_fit mode records kw cleared status
  ++ EvFit verbose :: events_after_fit almost_current verbose name move record.

(** The line feed, as a string. *)
Definition line_feed : string := String (Ascii.ascii_of_nat 10) "".

(** The events [train] produces only once [Config] has returned: every call
    but the check, the removal and the construction of [Config] itself. *)
Definition after_config (e : event) : Prop :=
  match e with
  | EvExists _ | EvRmtree _ | EvConfig _ => False
  | _ => True
  end.

(** The world in which [train] constructs its components: the one it was
    called in, without [checkpoints/] if something was there. *)
Definition world_of_run {S} (w : World S) : World S :=
  if Fs.exists_ (cwd w ++ ["checkpoints"]) (fs w) then cleared w else w.

(** ** Vocabulary of further statements *)

(** Every name of the namespace is one the command line documents. *)
Definition documented (a : args.Namespace) : Prop :=
  args.optimizer a ∈ optimizer_names
  ∧ ∀ names, args.activations a = Some names →
             Forall (λ n, n ∈ activation_names) names.

(** The names of [--activations] and the functions [activations_dict] holds
    for them, one for one. *)
Definition resolved (names : option (list string))
    (acts : option (list activation_fn)) : Prop :=
  match names, acts with
  | None, None => True
  | Some ns, Some fns => Forall2 (λ n f, activations_dict !! n = Some f) ns fns
  | _, _ => False
  end.

(** A call that leaves the directory tree and the working directory as it
    found them, whether it returns or raises; a call that returns. *)
Definition keeps_files {S A} (op : Call S A) : Prop :=
  ∀ w, fs (final (op w)) = fs w ∧ cwd (final (op w)) = cwd w.


(** Components that leave the files alone. *)
Record quiet (X : Externals) : Prop := {
  quiet_Config : ∀ kw, keeps_files (Config X kw);
  quiet_get_status : ∀ c, keeps_files (get_status X c);
  quiet_DataHolder : ∀ c rs, keeps_files (DataHolder X c rs);
  quiet_get_valid_tfrecord : ∀ d, keeps_files (get_valid_tfrecord X d);
  quiet_tf_Graph : keeps_files (tf_Graph X);
  quiet_DFN : ∀ g c, keeps_files (DFN X g c);
  quiet_Trainer : ∀ g c n d, keeps_files (Trainer X g c n d);
  quiet_fit : ∀ t v, keeps_files (fit X t v);
  quiet_predict : ∀ t a, keeps_files (predict X t a);
  quiet_reconstruct : ∀ r, keeps_files (reconstruct_from_record X r);
  quiet_plotconfusion :
    ∀ l p f i cs, keeps_files (plotconfusion X l p f i cs)
}.


(** Components that do nothing: every call returns at once. *)
Definition idle : Externals :=
  Build_Externals unit unit unit unit unit unit unit unit
    (λ _ w, Done tt w) (λ _ w, Done "" w) (λ _ _ w, Done tt w)
    (λ _ w, Done "" w) (λ w, Done tt w) (λ _ _ w, Done tt w)
    (λ _ _ _ _ w, Done tt w) (λ _ _ w, Done tt w) (λ _ _ w, Done tt w)
    (λ _ w, Done (tt, tt, tt) w) (λ a _, a) (λ a, inr a) tt
    (λ _ _ _ _ _ w, Done tt w).

(** A world for them: the tree of [w] with nothing else. *)
Definition idle_world (w : World Spec.SpecState) : World unit :=
  mkWorld (fs w) (cwd w) tt.

(** A script that keeps the files, and a script that returns. *)
Definition keeps {S A} (m : M S A) : Prop :=
  ∀ st, fs (world (final (m st))) = fs (world st)
        ∧ cwd (world (final (m st))) = cwd (world st).


(** The exception [e] of a run that started in the world [w] and ended in
    the state [st] is the one the last call of the run raised.  The trace
    ends with the call of a component that raised [e] and left the world of
    [st]; or with [predict], which returned and left that world, and the
    reshape of the labels raised [e]; or with [shutil.rmtree], which was
    called in [w] and failed there with [e]; or with [shutil.move], which
    was called in the world [fit] or [plotconfusion] left on returning and
    failed there with [e].  A file operation that fails changes nothing. *)
Definition raised_by_last_call (X : Externals) (w : World (ext_state X))
    (e : exn) (st : State (ext_state X)) : Prop :=
  ∃ ev, last (trace st) = Some ev ∧
    match ev with
    | EvExists _ | EvPrint _ => False
    | EvRmtree pn =>
        world st = w ∧ Fs.rmtree (Fs.resolve (cwd w) pn) (fs w) = inl e
    | EvMove src dst =>
        ((∃ t v w', fit X t v w' = Done tt (world st))
         ∨ (∃ l p f i cs w', plotconfusion X l p f i cs w' = Done tt (world st)))
        ∧ Fs.move (Fs.resolve (cwd (world st)) src)
                  (Fs.resolve (cwd (world st)) dst) (fs (world st)) = inl e
    | EvConfig kw => ∃ w', Config X kw w' = Raised e (world st)
    | EvDataHolder rs => ∃ c w', DataHolder X c rs w' = Raised e (world st)
    | EvGraph => ∃ w', tf_Graph X w' = Raised e (world st)
    | EvDFN => ∃ g c w', DFN X g c w' = Raised e (world st)
    | EvTrainer => ∃ g c n d w', Trainer X g c n d w' = Raised e (world st)
    | EvGetStatus => ∃ c w', get_status X c w' = Raised e (world st)
    | EvFit v => ∃ t w', fit X t v w' = Raised e (world st)
    | EvGetValid => ∃ d w', get_valid_tfrecord X d w' = Raised e (world st)
    | EvReconstruct r =>
        ∃ w', reconstruct_from_record X r w' = Raised e (world st)
    | EvPredict =>
        (∃ t a w', predict X t a w' = Raised e (world st))
        ∨ (∃ t a w' p l, predict X t a w' = Done p (world st)
                         ∧ reshape_rows X l = inl e)
    | EvPlotConfusion f cs =>
        ∃ l p i w', plotconfusion X l p f i cs w' = Raised e (world st)
    end.

(** ** More worlds *)

Module Worlds.

(** [checkpoints] is a regular file. *)
Definition file_world : World Spec.SpecState :=
  mkWorld
    (Demo.tree {["ml_training" :=
                   Fs.Dir (<["checkpoints" := Fs.File (Fs.Blob "notes")]>
                             (Demo.files 3))]})
    Demo.workdir Demo.fresh.

(** Two earlier runs with [--move] left [checkpoints/checkpoints/] one level
    up, and this run has saved to [checkpoints/]. *)
Definition nested_world : World Spec.SpecState :=
  mkWorld
    (Demo.tree
       (<["checkpoints" :=
            Fs.Dir (<["checkpoints" := Fs.Dir Demo.old_run]> Demo.old_run)]>
          {["ml_training" :=
              Fs.Dir (<["checkpoints" := Fs.Dir Demo.this_run]> (Demo.files 3))]}))
    Demo.workdir Demo.fresh.

(** The script is run from one level up, where [checkpoints/] is. *)
Definition parent_world : World Spec.SpecState :=
  mkWorld (fs Demo.moved_world) (parentdir Demo.script) Demo.fresh.

(** [--activations relu swish tanh --optimizer SGD] *)
Definition with_swish : args.Namespace := {|
  args.mode := args.mode default_args;
  args.height := args.height default_args;
  args.width := args.width default_args;
  args.architecture := args.architecture default_args;
  args.activations := Some ["relu"; "swish"; "tanh"];
  args.batch_size := args.batch_size default_args;
  args.epochs := args.epochs default_args;
  args.num_steps := args.num_steps default_args;
  args.save_step := args.save_step default_args;
  args.learning_rate := args.learning_rate default_args;
  args.optimizer := "SGD";
  args.verbose := args.verbose default_args;
  args.name := args.name default_args;
  args.move := args.move default_args
|}.

(** [--architecture 8 3 --activations tanh --optimizer Adam] *)
Definition with_tanh : args.Namespace := {|
  args.mode := args.mode default_args;
  args.height := args.height default_args;
  args.width := args.width default_args;
  args.architecture := [8; 3];
  args.activations := Some ["tanh"];
  args.batch_size := args.batch_size default_args;
  args.epochs := 1;
  args.num_steps := 10;
  args.save_step := 5;
  args.learning_rate := args.learning_rate default_args;
  args.optimizer := "Adam";
  args.verbose := args.verbose default_args;
  args.name := args.name default_args;
  args.move := args.move default_args
|}.

(** [train] with the components that do nothing. *)
Definition train_idle (verbose : bool) : M unit unit :=
  train idle Demo.script "bin" (new_records "bin") 90 160 1 [8; 3]
        (Some [relu]) 32 1 10 5 0.02%float GradientDescentOptimizer verbose
        "Confusion_Matrix" false.

End Worlds.

(** * Properties *)

(** ** The directory tree *)

Section fs_lemmas.
Implicit Types (p q : Fs.path) (r x : Fs.node) (c : string).

Lemma find_cons c p es :
  Fs.find (c :: p) (Fs.Dir es) = es !! c ≫= Fs.find p.
Proof. simpl. by destruct (es !! c). Qed.

Lemma remove_cons c c' p es :
  Fs.remove (c :: c' :: p) (Fs.Dir es)
  = Fs.Dir (alter (Fs.remove (c' :: p)) c es).
Proof. done. Qed.

Lemma place_cons mk c c' p x es :
  Fs.place mk (c :: c' :: p) x (Fs.Dir es)
  = match es !! c with
    | Some n => (λ n', Fs.Dir (<[c := n']> es)) <$> Fs.place mk (c' :: p) x n
    | None =>
        if mk
        then (λ n', Fs.Dir (<[c := n']> es)) <$> Fs.place mk (c' :: p) x (Fs.Dir ∅)
        else None
    end.
Proof.
  cbn [Fs.place]. destruct (es !! c); [by destruct (Fs.place _ _ _ _)|].
  destruct mk; [by destruct (Fs.place _ _ _ _)|done].
Qed.

Lemma prefix_cons_same c p q : c :: p `prefix_of` c :: q ↔ p `prefix_of` q.
Proof. split; [apply prefix_cons_inv_2|apply prefix_cons]. Qed.

Lemma find_remove_eq p r : p ≠ [] → Fs.find p (Fs.remove p r) = None.
Proof.
  revert r. induction p as [|c p IH]; intros r Hp; [done|].
  destruct r as [ct|es]; [done|].
  destruct p as [|c' p'].
  - cbn. by rewrite lookup_delete_eq.
  - rewrite remove_cons, find_cons, lookup_alter_eq.
    destruct (es !! c) as [n'|]; [|done]. by apply IH.
Qed.

Lemma find_remove_ne p q r :
  ¬ p `prefix_of` q → ¬ q `prefix_of` p →
  Fs.find q (Fs.remove p r) = Fs.find q r.
Proof.
  revert q r. induction p as [|c p IH]; intros q r Hpq Hqp.
  { destruct Hpq. apply prefix_nil. }
  destruct q as [|d q]; [destruct Hqp; apply prefix_nil|].
  destruct r as [ct|es]; [done|].
  destruct (decide (c = d)) as [->|Hne].
  - rewrite !prefix_cons_same in *. destruct p as [|c' p'].
    + destruct Hpq. apply prefix_nil.
    + rewrite remove_cons, !find_cons, lookup_alter_eq.
      destruct (es !! d) as [n'|]; [|done]. by apply IH.
  - destruct p as [|c' p'].
    + cbn. by rewrite lookup_delete_ne.
    + by rewrite remove_cons, !find_cons, lookup_alter_ne.
Qed.

(** Removing an entry keeps every directory that is not below it. *)
Lemma isdir_remove p q r :
  ¬ p `prefix_of` q → Fs.isdir q r = true → Fs.isdir q (Fs.remove p r) = true.
Proof.
  unfold Fs.isdir. revert q r. induction p as [|c p IH]; intros q r Hpq Hd.
  { destruct Hpq. apply prefix_nil. }
  destruct r as [ct|es]; [done|].
  destruct q as [|d q]; [by destruct p|].
  destruct (decide (c = d)) as [->|Hne].
  - rewrite prefix_cons_same in Hpq. destruct p as [|c' p'].
    + destruct Hpq. apply prefix_nil.
    + rewrite find_cons in Hd. rewrite remove_cons, find_cons, lookup_alter_eq.
      destruct (es !! d) as [n'|]; [|done]. by apply IH.
  - destruct p as [|c' p'].
    + rewrite find_cons in Hd. cbn [Fs.remove]. by rewrite find_cons, lookup_delete_ne.
    + rewrite find_cons in Hd. by rewrite remove_cons, find_cons, lookup_alter_ne.
Qed.

Lemma find_place_eq mk p x r r' :
  Fs.place mk p x r = Some r' → Fs.find p r' = Some x.
Proof.
  revert r r'. induction p as [|c p IH]; intros r r' H; [done|].
  destruct r as [ct|es]; [done|].
  destruct p as [|c' p'].
  - cbn in H. simplify_eq. by rewrite find_cons, lookup_insert_eq.
  - rewrite place_cons in H.
    destruct (es !! c) as [n'|]; [|destruct mk; [|done]].
    all: apply fmap_Some in H as (n'' & Hpl & ->).
    all: rewrite find_cons, lookup_insert_eq; by eapply IH.
Qed.

Lemma find_place_ne mk p q x r r' :
  ¬ p `prefix_of` q → ¬ q `prefix_of` p →
  Fs.place mk p x r = Some r' → Fs.find q r' = Fs.find q r.
Proof.
  revert q r r'. induction p as [|c p IH]; intros q r r' Hpq Hqp H; [done|].
  destruct q as [|d q]; [destruct Hqp; apply prefix_nil|].
  destruct r as [ct|es]; [done|].
  destruct (decide (c = d)) as [->|Hne].
  - rewrite !prefix_cons_same in *. destruct p as [|c' p'].
    { destruct Hpq. apply prefix_nil. }
    rewrite place_cons in H.
    destruct (es !! d) as [n'|] eqn:Hd; [|destruct mk; [|done]].
    all: apply fmap_Some in H as (n'' & Hpl & ->).
    all: rewrite !find_cons, lookup_insert_eq, Hd; simpl.
    + by eapply IH.
    + erewrite IH; [|done..]. destruct q as [|d' q'].
      * destruct Hqp. apply prefix_nil.
      * by rewrite find_cons, lookup_empty.
  - destruct p as [|c' p'].
    + cbn in H. simplify_eq. by rewrite !find_cons, lookup_insert_ne.
    + rewrite place_cons in H.
      destruct (es !! c) as [n'|]; [|destruct mk; [|done]].
      all: apply fmap_Some in H as (n'' & Hpl & ->).
      all: by rewrite !find_cons, lookup_insert_ne.
Qed.

(** An entry can be bound in every existing directory. *)
Lemma place_in_dir mk d c x r :
  Fs.isdir d r = true → is_Some (Fs.place mk (d ++ [c]) x r).
Proof.
  unfold Fs.isdir. revert r. induction d as [|e d IH]; intros r Hd.
  - destruct r; [done|]. by eexists.
  - destruct r as [ct|es]; [done|]. rewrite find_cons in Hd.
    destruct (d ++ [c]) as [|c' p'] eqn:Hdc; [by destruct d|].
    rewrite <-app_comm_cons, Hdc, place_cons.
    destruct (es !! e) as [n'|]; [|done]. simpl in Hd.
    destruct (IH n' Hd) as [n'' ->]. by eexists.
Qed.

End fs_lemmas.

Lemma prefix_elem_of {A} (l1 l2 : list A) x :
  l1 `prefix_of` l2 → x ∈ l1 → x ∈ l2.
Proof. intros [k ->] ?. apply elem_of_app. by left. Qed.

Lemma prefix_snoc_inv {A} (p d : list A) c :
  p `prefix_of` d ++ [c] → p `prefix_of` d ∨ p = d ++ [c].
Proof.
  intros [k Hk]. destruct k as [|x k _] using rev_ind.
  - right. by rewrite app_nil_r in Hk.
  - left. rewrite app_assoc in Hk. apply app_inj_tail in Hk as [-> _].
    by eexists.
Qed.

(** A list splits at an element in one way when nothing else in it looks
    like that element. *)
Lemma split_at_unique {A} (P : A → Prop) (l1 l2 pre post : list A) (x y : A) :
  Forall (λ e, ¬ P e) l1 → Forall (λ e, ¬ P e) l2 → P x → P y →
  l1 ++ x :: l2 = pre ++ y :: post →
  pre = l1 ∧ y = x ∧ post = l2.
Proof.
  intros H1 H2 Hx Hy. revert pre. induction H1 as [|e l1 He H1 IH]; intros pre Heq.
  - destruct pre as [|e' pre]; simplify_eq/=; [done|].
    apply Forall_app in H2 as [_ H2]. by apply Forall_cons in H2 as [? _].
  - destruct pre as [|e' pre]; simplify_eq/=; [done|].
    by destruct (IH _ H0) as (-> & -> & ->).
Qed.

Lemma find_prefix_Some (p q : Fs.path) r x :
  Fs.find (p ++ q) r = Some x → is_Some (Fs.find p r).
Proof.
  revert r. induction p as [|c p IH]; intros r H; [by eexists|].
  destruct r as [ct|es]; [done|].
  rewrite <-app_comm_cons, find_cons in H. rewrite find_cons.
  destruct (es !! c) as [n|]; [|done]. by apply (IH n).
Qed.

(** [shutil.move] of a directory to a path that does not exist, in an
    existing directory that is not below the source: the directory is bound
    at the destination, nothing is left at the source, and the paths that
    are not on the way are as before. *)
Lemma move_fresh (src d : Fs.path) c r es :
  Fs.find src r = Some (Fs.Dir es) →
  Fs.find (d ++ [c]) r = None →
  Fs.isdir d r = true →
  ¬ src `prefix_of` d →
  ∃ r', Fs.move src (d ++ [c]) r = inr r'
        ∧ Fs.find (d ++ [c]) r' = Some (Fs.Dir es)
        ∧ Fs.find src r' = None
        ∧ ∀ q, ¬ src `prefix_of` q → ¬ q `prefix_of` src →
               ¬ d ++ [c] `prefix_of` q → ¬ q `prefix_of` d ++ [c] →
               Fs.find q r' = Fs.find q r.
Proof.
  intros Hsrc Hdst Hd Hnp.
  assert (¬ src `prefix_of` d ++ [c]) as Hnp'.
  { intros [?| ->]%prefix_snoc_inv; [done|congruence]. }
  assert (¬ d ++ [c] `prefix_of` src) as Hnp''.
  { intros [k ->]. apply find_prefix_Some in Hsrc as [? ?]. congruence. }
  assert (src ≠ []) as Hne.
  { intros ->. apply Hnp, prefix_nil. }
  unfold Fs.move, Fs.rename_into. rewrite Hdst, Hsrc.
  rewrite bool_decide_eq_false_2 by done.
  destruct (place_in_dir true d c (Fs.Dir es) (Fs.remove src r)) as [r' Hr'].
  { by apply isdir_remove. }
  rewrite Hr'. exists r'. split_and!; [done|by eapply find_place_eq| |].
  - erewrite find_place_ne; [|done..]. by apply find_remove_eq.
  - intros q ????. erewrite find_place_ne; [|done..]. by apply find_remove_ne.
Qed.

(** ** Stepping through a run *)

Section steps.
Context {S : Type}.

Lemma call_eq {A} ev (op : Call S A) (st : State S) :
  call ev op st
  = match op (world st) with
    | Done a w => Done a (mkState w (trace st ++ [ev]))
    | Raised e w => Raised e (mkState w (trace st ++ [ev]))
    end.
Proof. done. Qed.

Lemma print_eq s (st : State S) :
  print s st = Done tt (mkState (world st) (trace st ++ [EvPrint s])).
Proof. done. Qed.

Lemma exists_eq pn (st : State S) :
  os_path_exists pn st
  = Done (Fs.exists_ (Fs.resolve (cwd (world st)) pn) (fs (world st)))
         (mkState (world st) (trace st ++ [EvExists pn])).
Proof. done. Qed.

Lemma getitem_eq {V} (d : gmap string V) k (st : State S) :
  getitem d k st
  = match d !! k with
    | Some v => Done v st
    | None => Raised (KeyError k) st
    end.
Proof. unfold getitem. by destruct (d !! k). Qed.

(** [d[k]] for each name of a list: all found, or [KeyError] for the first
    name that is not a key, with nothing done. *)
Lemma comprehension_getitem {V} (d : gmap string V) names (st : State S) :
  (∃ fns, comprehension (getitem d) names st = Done fns st
          ∧ Forall2 (λ n f, d !! n = Some f) names fns)
  ∨ (∃ k, comprehension (getitem d) names st = Raised (KeyError k) st
          ∧ k ∈ names ∧ d !! k = None).
Proof.
  induction names as [|n names IH].
  { left. exists []. split; [reflexivity|constructor]. }
  cbn [comprehension]. unfold mbind, M_bind. rewrite getitem_eq.
  destruct (d !! n) as [f|] eqn:Hn.
  - destruct IH as [(fns & HH & Hall)|(k & HH & Hk & Hd)]; rewrite HH.
    + left. exists (f :: fns). split; [reflexivity|]. by constructor.
    + right. exists k. split_and!; [reflexivity| |done].
      by apply list_elem_of_further.
  - right. exists n. split_and!; [reflexivity| |done]. apply list_elem_of_here.
Qed.

Lemma respects_ret {A} (a : A) : respects (S:=S) (mret a) (mret a).
Proof. by intros st st' H. Qed.

Lemma respects_raise {A} e : respects (S:=S) (A:=A) (raise e) (raise e).
Proof. by intros st st' H. Qed.

Lemma respects_lift {A} (r : exn + A) : respects (S:=S) (lift r) (lift r).
Proof. destruct r; [apply respects_raise|apply respects_ret]. Qed.

Lemma respects_call {A} ev (op : Call S A) : respects (call ev op) (call ev op).
Proof.
  intros st st' [Hw Ht]. rewrite !call_eq, Hw.
  destruct (op (world st')); (split; [done|]); split; try done.
  all: cbn [trace]; unfold unprinted in *; by rewrite !filter_app, Ht.
Qed.

Lemma respects_print s s' : respects (S:=S) (print s) (print s').
Proof.
  intros st st' [Hw Ht]. rewrite !print_eq. split; [done|]. split; [done|].
  cbn [trace]. unfold unprinted in *. rewrite !filter_app, Ht. done.
Qed.

Lemma respects_bind {A B} (m m' : M S A) (k k' : A → M S B) :
  respects m m' → (∀ a, respects (k a) (k' a)) →
  respects (m ≫= k) (m' ≫= k').
Proof.
  intros Hm Hk st st' H. specialize (Hm st st' H).
  unfold mbind, M_bind. destruct (m st), (m' st'); try done.
  destruct Hm as [-> ?]. by apply Hk.
Qed.

End steps.

Lemma optimizer_dict_unknown k :
  k ∉ optimizer_names → optimizer_dict !! k = None.
Proof. intros H. apply not_elem_of_list_to_map_1. exact H. Qed.

Lemma activations_dict_unknown k :
  k ∉ activation_names → activations_dict !! k = None.
Proof. intros H. apply not_elem_of_list_to_map_1. exact H. Qed.

Ltac unfold_script :=
  unfold run, train, clear_checkpoints, proceed, build_and_fit, evaluate,
    relocate, shutil_rmtree, shutil_move, lift, raise,
    mbind, M_bind, mret, M_ret.

(** One call of the script: its outcome is split in the two cases. *)
Ltac step :=
  first
    [ rewrite print_eq
    | rewrite exists_eq
    | match goal with
      | |- context [call ?ev ?op ?st] =>
          rewrite (call_eq ev op st);
          destruct (op (world st)) as [? ?|? ?] eqn:?
      end
    | match goal with
      | |- context [match reshape_rows ?X ?a with _ => _ end] =>
          destruct (reshape_rows X a) eqn:?
      end
    | match goal with
      | |- context [if ?b then _ else _] => destruct b eqn:?
      end
    | match goal with
      | |- context [match ?p with (_, _) => _ end] => destruct p
      end ];
  cbn beta iota delta [world trace final app].

Ltac in_cases H :=
  repeat (apply elem_of_cons in H as [H|H]);
  try (by apply elem_of_nil in H).

Ltac respects_script :=
  repeat first
    [ apply respects_call
    | apply respects_print
    | apply respects_ret
    | apply respects_lift
    | apply respects_bind; [|intros ?]
    | match goal with
      | |- respects (if ?b then _ else _) _ => destruct b
      | |- respects (match ?p with (_, _) => _ end) _ => destruct p
      end ].

(** ** The script with any components *)

Section props.
Context (X : Externals).
Variable almost_current : Fs.path.

Local Abbreviation St := (State (ext_state X)).

Section train_props.
Variables (mode : string) (records : list string) (height width channels : Z)
  (architecture : list Z) (activations : option (list activation_fn))
  (batch_size epochs num_steps save_step : Z) (learning_rate : float)
  (optimizer : optimizer_cls) (verbose : bool) (name : string) (move : bool).

Local Abbreviation the_train :=
  (train X almost_current mode records height width channels architecture
     activations batch_size epochs num_steps save_step learning_rate
     optimizer verbose name move).

Local Abbreviation the_kw :=
  (Build_ConfigKw height width channels architecture activations batch_size
     epochs num_steps save_step learning_rate optimizer).

Local Abbreviation the_trace :=
  (script_trace almost_current mode records the_kw verbose name move).

(** The trace of a run is a prefix of the script's events, all of them when
    the run completes. *)
Lemma train_trace w :
  ∃ status record,
    let full :=
      the_trace (Fs.exists_ (Fs.resolve (cwd w) checkpoints) (fs w))
                status record in
    trace (final (run X the_train w)) `prefix_of` full
    ∧ (∀ st, run X the_train w = Done tt st → trace st = full)
    ∧ (EvFit verbose ∈ trace (final (run X the_train w)) →
       ∃ c w1 w2, get_status X c w1 = Done status w2).
Proof.
  unfold script_trace, events_before_fit, events_after_fit. unfold_script.
  cbn beta. destruct verbose, move.
  all: repeat step.
  all: eexists _, _; cbn beta zeta iota delta [app].
  all: split; [by eexists|split; [intros; by simplify_eq|]].
  all: intros Hin.
  all: try by do 3 eexists.
  all: exfalso.
  all: repeat (apply elem_of_cons in Hin as [Hin|Hin]; [discriminate|]).
  all: by apply elem_of_nil in Hin.
  Unshelve. all: exact "".
Qed.

Lemma events_before_fit_no_fit c s :
  Forall (λ e, ¬ is_fit e) (events_before_fit mode records the_kw c s).
Proof. destruct c; repeat constructor; by intros []. Qed.

Lemma events_after_fit_no_fit r :
  Forall (λ e, ¬ is_fit e) (events_after_fit almost_current verbose name move r).
Proof.
  unfold events_after_fit.
  destruct verbose, move; repeat constructor; by intros [].
Qed.

Lemma script_trace_plot c s r file cls :
  EvPlotConfusion file cls ∈ the_trace c s r →
  verbose = true ∧ file = name +:+ ".png" ∧ cls = classes.
Proof.
  unfold script_trace, events_before_fit, events_after_fit.
  destruct c, verbose, move; cbn [app]; intros H; in_cases H; by simplify_eq.
Qed.

Lemma script_trace_silent c s r e :
  verbose = false → e ∈ the_trace c s r → ¬ is_evaluation e.
Proof.
  unfold script_trace, events_before_fit, events_after_fit. intros Hv.
  rewrite Hv.
  destruct c, move; cbn [app]; intros H; in_cases H; subst e; by intros [].
Qed.

Lemma script_trace_config c s r kw :
  EvConfig kw ∈ the_trace c s r → kw = the_kw.
Proof.
  unfold script_trace, events_before_fit, events_after_fit.
  destruct c, verbose, move; cbn [app]; intros H; in_cases H; by simplify_eq.
Qed.

Lemma script_trace_dataholder c s r recs :
  EvDataHolder recs ∈ the_trace c s r → recs = records.
Proof.
  unfold script_trace, events_before_fit, events_after_fit.
  destruct c, verbose, move; cbn [app]; intros H; in_cases H; by simplify_eq.
Qed.

Lemma clear_existing w es t :
  Fs.find (cwd w ++ ["checkpoints"]) (fs w) = Some (Fs.Dir es) →
  clear_checkpoints X (mkState w t)
  = Done tt (mkState (cleared w) (t ++ [EvExists checkpoints; EvRmtree checkpoints])).
Proof.
  intros H. unfold clear_checkpoints, mbind, M_bind. rewrite exists_eq.
  cbn [world trace Fs.resolve checkpoints]. unfold Fs.exists_. rewrite H.
  unfold shutil_rmtree. rewrite call_eq. unfold fs_call, Fs.rmtree.
  cbn [world trace Fs.resolve checkpoints]. rewrite H. by rewrite <-app_assoc.
Qed.

Lemma cleared_gone (w : World (ext_state X)) :
  Fs.find (cwd w ++ ["checkpoints"]) (fs (cleared w)) = None.
Proof. apply find_remove_eq. by destruct (cwd w). Qed.

Lemma proceed_extends kw (st : St) :
  ∃ evs, trace (final (proceed X almost_current mode records kw verbose name move st))
         = trace st ++ evs.
Proof.
  unfold_script. cbn beta. destruct verbose, move.
  all: repeat step.
  all: rewrite <-?app_assoc; by eexists.
Qed.

Lemma train_after_clear w es :
  Fs.find (cwd w ++ ["checkpoints"]) (fs w) = Some (Fs.Dir es) →
  run X the_train w
  = proceed X almost_current mode records the_kw verbose name move
      (mkState (cleared w) [EvExists checkpoints; EvRmtree checkpoints]).
Proof.
  intros H. unfold run, train, mbind at 1, M_bind at 1.
  by rewrite (clear_existing _ es).
Qed.

(** C3. When [train] is called and [checkpoints/] is a directory, the run is
    the rest of [train] started in the world where that directory has been
    removed: the check and the removal are the first two events, before any
    component is constructed and before [fit], and nothing is left at
    [checkpoints/] for them to find. *)
Theorem stale_checkpoints_cleared w es :
  Fs.find (cwd w ++ ["checkpoints"]) (fs w) = Some (Fs.Dir es) →
  let st1 := mkState (cleared w) [EvExists checkpoints; EvRmtree checkpoints] in
  Fs.exists_ (cwd (cleared w) ++ ["checkpoints"]) (fs (cleared w)) = false
  ∧ run X the_train w
    = proceed X almost_current mode records the_kw verbose name move st1
  ∧ ∃ evs, trace (final (run X the_train w))
           = [EvExists checkpoints; EvRmtree checkpoints] ++ evs.
Proof.
  intros H st1. pose proof (train_after_clear w es H) as Hrun.
  split_and!.
  - unfold Fs.exists_. cbn [cleared cwd with_fs]. by rewrite cleared_gone.
  - done.
  - rewrite Hrun. apply proceed_extends.
Qed.

(** C7. [train] calls [plotconfusion] only in the evaluation block, with the
    file [name + ".png"] and the classes [["left", "right", "up"]]; without
    [verbose] a run makes none of the calls of that block; a run that
    completes has made the call if and only if [verbose] is set. *)
Theorem confusion_plot_iff_verbose w :
  let o := run X the_train w in
  (∀ file cls, EvPlotConfusion file cls ∈ trace (final o) →
     verbose = true ∧ file = name +:+ ".png" ∧ cls = ["left"; "right"; "up"])
  ∧ (verbose = false → ∀ e, e ∈ trace (final o) → ¬ is_evaluation e)
  ∧ (∀ st, o = Done tt st →
       EvPlotConfusion (name +:+ ".png") ["left"; "right"; "up"] ∈ trace st
       ↔ verbose = true).
Proof.
  cbn zeta. destruct (train_trace w) as (status & record & Hpre & Hdone & _).
  cbn zeta in *. split_and!.
  - intros file cls Hin. eapply script_trace_plot, prefix_elem_of; done.
  - intros Hv e Hin. eapply script_trace_silent, prefix_elem_of; done.
  - intros st Hst. rewrite (Hdone st Hst). split.
    + intros Hin. by apply script_trace_plot in Hin as [? _].
    + intros Hv. unfold script_trace, events_after_fit. rewrite Hv.
      apply elem_of_app. right. apply list_elem_of_further, elem_of_app. left.
      unfold classes. set_solver.
Qed.

(** C10. When [train] is called and [checkpoints/] is a directory, a run
    that ends with an exception has removed the directory first: the
    exception comes from the rest of [train], started in the world without
    the directory, after the check and the removal; in particular when the
    constructor of [Config] raises, the run ends there, in the world the
    constructor left. *)
Theorem failed_run_has_cleared w es e st :
  Fs.find (cwd w ++ ["checkpoints"]) (fs w) = Some (Fs.Dir es) →
  run X the_train w = Raised e st →
  let st1 := mkState (cleared w) [EvExists checkpoints; EvRmtree checkpoints] in
  Fs.find (cwd w ++ ["checkpoints"]) (fs (cleared w)) = None
  ∧ proceed X almost_current mode records the_kw verbose name move st1
    = Raised e st
  ∧ (∃ evs, trace st = [EvExists checkpoints; EvRmtree checkpoints] ++ evs)
  ∧ (∀ e' w2, Config X the_kw (cleared w) = Raised e' w2 →
       e = e' ∧
       st = mkState w2 [EvExists checkpoints; EvRmtree checkpoints;
                        EvConfig the_kw]).
Proof.
  intros H Hrun st1.
  assert (proceed X almost_current mode records the_kw verbose name move st1
          = Raised e st) as Hpro.
  { by rewrite <-Hrun, (train_after_clear w es H). }
  split_and!.
  - apply cleared_gone.
  - done.
  - destruct (proceed_extends the_kw st1) as [evs Hevs].
    rewrite Hpro in Hevs. by exists evs.
  - intros e' w2 HC. revert Hpro. unfold proceed, build_and_fit, mbind, M_bind.
    rewrite call_eq. cbn [world trace st1]. rewrite HC. by intros [= -> ->].
Qed.

End train_props.

(** C9 (as amended). The relocation is the last step of [train].  Without
    [move] it does nothing at all.  With [move], when [checkpoints/] is a
    directory, nothing exists yet at [parentdir/checkpoints], and [parentdir]
    is a directory that does not lie in [checkpoints/], the directory ends up
    at [parentdir/checkpoints], nothing is left at [checkpoints/], and every
    path off the two is untouched. *)
Theorem relocation_when_destination_free
    mode records height width channels architecture activations batch_size
    epochs num_steps save_step learning_rate optimizer verbose name move :
  (∀ w st',
     run X (train X almost_current mode records height width channels
              architecture activations batch_size epochs num_steps save_step
              learning_rate optimizer verbose name move) w = Done tt st' →
     ∃ st0 data trainer st1 st,
       clear_checkpoints X (mkState w []) = Done tt st0
       ∧ build_and_fit X mode records
           {| height := height; width := width;
              channels := channels; architecture := architecture;
              activations := activations; batch_size := batch_size;
              epochs := epochs; num_steps := num_steps;
              save_step := save_step;
              learning_rate := learning_rate;
              optimizer := optimizer |} verbose st0
         = Done (data, trainer) st1
       ∧ evaluate X verbose name data trainer st1 = Done tt st
       ∧ relocate X almost_current move st = Done tt st')
  ∧ (∀ st, relocate X almost_current false st = Done tt st)
  ∧ (∀ st es,
       let w := world st in
       let src := cwd w ++ ["checkpoints"] in
       let dst := parentdir almost_current ++ ["checkpoints"] in
       Fs.find src (fs w) = Some (Fs.Dir es) →
       Fs.find dst (fs w) = None →
       Fs.isdir (parentdir almost_current) (fs w) = true →
       ¬ src `prefix_of` parentdir almost_current →
       ∃ r',
         relocate X almost_current true st
         = Done tt (mkState (with_fs w r')
                      (trace st ++ [EvMove checkpoints
                                      (Fs.join (parentdir almost_current)
                                               "checkpoints")]))
         ∧ Fs.find dst r' = Some (Fs.Dir es)
         ∧ Fs.find src r' = None
         ∧ ∀ q, ¬ src `prefix_of` q → ¬ q `prefix_of` src →
                ¬ dst `prefix_of` q → ¬ q `prefix_of` dst →
                Fs.find q r' = Fs.find q (fs w)).
Proof.
  split_and!.
  - intros w st'. unfold run, train, proceed, mbind, M_bind.
    repeat case_match; try done. intros ?. simplify_eq.
    repeat match goal with u : unit |- _ => destruct u end.
    do 5 eexists. split_and!; [reflexivity|eassumption..].
  - done.
  - intros st es w src dst Hsrc Hdst Hd Hnp.
    destruct (move_fresh src (parentdir almost_current) "checkpoints" (fs w) es)
      as (r' & Hmv & ?); [done..|].
    exists r'. split; [|done].
    unfold relocate, shutil_move. rewrite call_eq. unfold fs_call.
    cbn [Fs.resolve Fs.join checkpoints]. fold w. fold src. by rewrite Hmv.
Qed.

(** [train] reads [mode] only to print it. *)
Lemma train_mode_irrelevant
    mode mode' records height width channels architecture activations
    batch_size epochs num_steps save_step learning_rate optimizer verbose
    name move :
  respects
    (train X almost_current mode records height width channels architecture
       activations batch_size epochs num_steps save_step learning_rate
       optimizer verbose name move)
    (train X almost_current mode' records height width channels architecture
       activations batch_size epochs num_steps save_step learning_rate
       optimizer verbose name move).
Proof.
  unfold train, clear_checkpoints, proceed, build_and_fit, evaluate, relocate,
    os_path_exists, shutil_rmtree, shutil_move.
  respects_script.
Qed.

(** What [main] does before it calls [train]: the names are resolved, and an
    unknown one ends the run with nothing done. *)
Lemma main_run a w :
  (∃ k, run X (main X almost_current a) w = Raised (KeyError k) (mkState w [])
        ∧ ((∃ names, args.activations a = Some names ∧ k ∈ names
                     ∧ activations_dict !! k = None)
           ∨ (k = args.optimizer a ∧ optimizer_dict !! k = None)))
  ∨ (∃ acts opt,
        optimizer_dict !! args.optimizer a = Some opt
        ∧ (∀ names n, args.activations a = Some names → n ∈ names →
             is_Some (activations_dict !! n))
        ∧ run X (main X almost_current a) w
          = run X (train X almost_current (args.mode a)
                     (new_records (args.mode a)) (args.height a)
                     (args.width a) (channels_of_mode (args.mode a))
                     (args.architecture a) acts (args.batch_size a)
                     (args.epochs a) (args.num_steps a) (args.save_step a)
                     (args.learning_rate a) opt (args.verbose a)
                     (args.name a) (args.move a)) w).
Proof.
  unfold run, main. cbn zeta. unfold mbind, M_bind.
  destruct (args.activations a) as [names|] eqn:Hacts.
  - destruct (comprehension_getitem activations_dict names
                (mkState (S:=ext_state X) w []))
      as [(fns & Hc & Hall)|(k & Hc & Hk & Hd)]; rewrite Hc.
    + cbn [mret M_ret]. rewrite getitem_eq.
      destruct (optimizer_dict !! args.optimizer a) as [opt|] eqn:Ho.
      * right. exists (Some fns), opt. split_and!; [done| |done].
        intros ? n [= <-] [i Hi]%list_elem_of_lookup.
        destruct (Forall2_lookup_l _ _ _ _ _ Hall Hi) as (f & _ & ?). by exists f.
      * left. eexists. split; [done|]. by right.
    + left. exists k. split; [done|]. left. by exists names.
  - cbn [mret M_ret]. rewrite getitem_eq.
    destruct (optimizer_dict !! args.optimizer a) as [opt|] eqn:Ho.
    + right. by exists None, opt.
    + left. eexists. split; [done|]. by right.
Qed.

(** Every event of a run of [main] is one of the script of [train], for the
    arguments [main] derives from the namespace. *)
Lemma main_events a w e :
  e ∈ trace (final (run X (main X almost_current a) w)) →
  ∃ acts opt c s r,
    e ∈ script_trace almost_current (args.mode a) (new_records (args.mode a))
          {| height := args.height a; width := args.width a;
             channels := channels_of_mode (args.mode a);
             architecture := args.architecture a;
             activations := acts;
             batch_size := args.batch_size a;
             epochs := args.epochs a;
             num_steps := args.num_steps a;
             save_step := args.save_step a;
             learning_rate := args.learning_rate a;
             optimizer := opt |}
          (args.verbose a) (args.name a) (args.move a) c s r.
Proof.
  destruct (main_run a w) as [(k & -> & _)|(acts & opt & _ & _ & ->)].
  { intros H. by apply elem_of_nil in H. }
  intros H.
  destruct (train_trace (args.mode a) (new_records (args.mode a))
              (args.height a) (args.width a) (channels_of_mode (args.mode a))
              (args.architecture a) acts (args.batch_size a) (args.epochs a)
              (args.num_steps a) (args.save_step a) (args.learning_rate a)
              opt (args.verbose a) (args.name a) (args.move a) w)
    as (s & r & Hpre & _).
  exists acts, opt. do 3 eexists. eapply prefix_elem_of; done.
Qed.

(** C2. The channel count [main] resolves is 1 for the modes [bin], [gray]
    and [green] and 3 for every other string, and it is the count the
    [Config] of the run is constructed with. *)
Theorem channels_follow_mode :
  (∀ m, channels_of_mode m
        = if bool_decide (m ∈ ["bin"; "gray"; "green"]) then 1 else 3)
  ∧ (∀ a w kw,
       EvConfig kw ∈ trace (final (run X (main X almost_current a) w)) →
       channels kw = channels_of_mode (args.mode a)).
Proof.
  split.
  - intros m. unfold channels_of_mode.
    destruct (String.eqb_spec m "bin") as [->|?]; [done|].
    destruct (String.eqb_spec m "gray") as [->|?]; [done|].
    destruct (String.eqb_spec m "green") as [->|?]; [done|].
    rewrite bool_decide_eq_false_2; [done|]. intros H. in_cases H; done.
  - intros a w kw (acts & opt & c & s & r & H)%main_events.
    by apply script_trace_config in H as ->.
Qed.

(** C4. When the optimizer name, or one of the activation names, is not one
    the command line documents, [main] ends with [KeyError] for one of the
    supplied names, in the world it started in and without a single event:
    before [train] is called, before anything is read or trained. *)
Theorem unknown_name_is_lookup_error a w :
  args.optimizer a ∉ optimizer_names
  ∨ (∃ names n, args.activations a = Some names ∧ n ∈ names
                ∧ n ∉ activation_names) →
  ∃ k, run X (main X almost_current a) w = Raised (KeyError k) (mkState w [])
       ∧ (k = args.optimizer a
          ∨ ∃ names, args.activations a = Some names ∧ k ∈ names).
Proof.
  intros Hbad.
  destruct (main_run a w)
    as [(k & Hrun & Hk)|(acts & opt & Ho & Hacts & _)].
  - exists k. split; [done|].
    destruct Hk as [(names & ? & ? & _)|[-> _]]; [right; by exists names|by left].
  - exfalso. destruct Hbad as [Hn|(names & n & Hs & Hin & Hn)].
    + apply optimizer_dict_unknown in Hn. congruence.
    + apply activations_dict_unknown in Hn.
      destruct (Hacts names n Hs Hin) as [? ?]. congruence.
Qed.

(** C5 (as amended). [main] derives the channel count from the mode: a
    command-line run with [mode=pure] constructs its [Config] with three
    channels.  [train] does not compare [channels] with [mode]: it only
    prints [mode], so with [mode=pure] it makes the same calls, ends the same
    way and leaves the same world as with any other mode and the same other
    arguments. *)
Theorem mode_is_not_checked_against_channels :
  (∀ a w kw,
     args.mode a = "pure" →
     EvConfig kw ∈ trace (final (run X (main X almost_current a) w)) →
     channels kw = 3)
  ∧ (∀ mode' records height width channels architecture activations
       batch_size epochs num_steps save_step learning_rate optimizer verbose
       name move w,
       same_but_prints
         (run X (train X almost_current "pure" records height width channels
                   architecture activations batch_size epochs num_steps
                   save_step learning_rate optimizer verbose name move) w)
         (run X (train X almost_current mode' records height width channels
                   architecture activations batch_size epochs num_steps
                   save_step learning_rate optimizer verbose name move) w)).
Proof.
  split.
  - intros a w kw Hm (acts & opt & c & s & r & H)%main_events.
    apply script_trace_config in H as ->. cbn. by rewrite Hm.
  - intros. by apply train_mode_irrelevant.
Qed.

(** Every [Config] a run of [main] constructs has the architecture of the
    command line. *)
Lemma architecture_passed_on a w kw :
  EvConfig kw ∈ trace (final (run X (main X almost_current a) w)) →
  architecture kw = args.architecture a.
Proof.
  intros (acts & opt & c & s & r & H)%main_events.
  by apply script_trace_config in H as ->.
Qed.

End props.

(** ** The script with the components of the specification *)

Lemma completes_Done {W} (o : outcome unit W) :
  completes o = true → o = Done tt (final o).
Proof. by destruct o as [[] ?|]. Qed.

(** The [i]-th event of a trace, by evaluation. *)
Ltac in_trace i :=
  apply (list_elem_of_lookup_2 _ i); vm_compute; reflexivity.

(** C5, counterexample. [train] called with [mode="pure"] and
    [channels=1]: nothing is rejected before training.  Where the [pure]
    records hold three-channel samples, [fit] is called and it is [fit] that
    raises, a data error; where they hold single-channel samples the run
    completes.  No configuration error either way. *)
Lemma pure_with_one_channel_is_not_rejected :
  let o := run Spec.externals Demo.train_pure_1 Demo.world in
  let o' := run Spec.externals Demo.train_pure_1 Demo.gray_as_pure_world in
  o = Raised (DataError "sample shape disagrees with the configuration")
             (final o)
  ∧ EvFit false ∈ trace (final o)
  ∧ o' = Done tt (final o')
  ∧ EvFit false ∈ trace (final o')
  ∧ ¬ (∃ msg st, o = Raised (ConfigurationError msg) st)
  ∧ ¬ (∃ msg st, o' = Raised (ConfigurationError msg) st).
Proof.
  intros o o'.
  assert (o = Raised (DataError "sample shape disagrees with the configuration")
                     (final o)) as Ho by (vm_compute; reflexivity).
  assert (o' = Done tt (final o')) as Ho' by (by apply completes_Done).
  split_and!; [done|in_trace 9%nat|done|in_trace 9%nat| |].
  - intros (msg & st & H). rewrite H in Ho. discriminate.
  - intros (msg & st & H). rewrite H in Ho'. discriminate.
Qed.

(** C9, counterexample. A run with [move] where an earlier run has left
    [checkpoints/] one level up: the run completes, and its directory is not
    at [parentdir/checkpoints], which is still the old directory, but inside
    it, at [parentdir/checkpoints/checkpoints].  The relocation step alone
    does the same to any directory it finds at [checkpoints/]. *)
Lemma relocation_into_existing_directory :
  let o := run Spec.externals (Demo.train_bin false true) Demo.moved_world in
  let dst := parentdir Demo.script ++ ["checkpoints"] in
  let new_run := Spec.snapshots Demo.kw_bin in
  let st := mkState Demo.both_world [] in
  let o' := relocate Spec.externals Demo.script true st in
  o = Done tt (final o)
  ∧ Fs.find dst (fs (world (final o)))
    = Some (Fs.Dir (<["checkpoints" := Fs.Dir new_run]> Demo.old_run))
  ∧ Fs.find (dst ++ ["checkpoints"]) (fs (world (final o)))
    = Some (Fs.Dir new_run)
  ∧ Fs.find dst (fs (world (final o))) ≠ Some (Fs.Dir new_run)
  ∧ o' = Done tt (final o')
  ∧ Fs.find dst (fs (world (final o')))
    = Some (Fs.Dir (<["checkpoints" := Fs.Dir Demo.this_run]> Demo.old_run))
  ∧ Fs.find dst (fs (world (final o'))) ≠ Some (Fs.Dir Demo.this_run).
Proof.
  intros o dst new_run st o'.
  assert (Fs.find dst (fs (world (final o)))
          = Some (Fs.Dir (<["checkpoints" := Fs.Dir new_run]> Demo.old_run)))
    as Hdst by (vm_compute; reflexivity).
  assert (Fs.find dst (fs (world (final o')))
          = Some (Fs.Dir (<["checkpoints" := Fs.Dir Demo.this_run]> Demo.old_run)))
    as Hdst' by (vm_compute; reflexivity).
  split_and!;
    [by apply completes_Done|done|vm_compute; reflexivity|
     |by apply completes_Done|done|].
  - rewrite Hdst. intros [=].
  - rewrite Hdst'. intros [=].
Qed.

(** ** The theorems at work on concrete runs *)

Lemma channels_follow_mode_witness :
  channels_of_mode "gray" = 1
  ∧ channels_of_mode "flip" = 3
  ∧ channels (Demo.config_of Demo.with_pure None GradientDescentOptimizer)
    = channels_of_mode "pure".
Proof.
  pose proof (channels_follow_mode Spec.externals Demo.script) as [Hm Hrun].
  split_and!; [exact (Hm "gray")|exact (Hm "flip")|].
  apply (Hrun Demo.with_pure Demo.world). in_trace 1%nat.
Defined.

Lemma stale_checkpoints_cleared_witness :
  Fs.find (Demo.workdir ++ ["checkpoints"]) (fs Demo.stale_world)
  = Some (Fs.Dir Demo.old_run)
  ∧ Fs.exists_ (Demo.workdir ++ ["checkpoints"]) (fs (cleared Demo.stale_world))
    = false
  ∧ ∃ evs,
      trace (final (run Spec.externals (Demo.train_bin false false)
                      Demo.stale_world))
      = [EvExists checkpoints; EvRmtree checkpoints] ++ evs.
Proof.
  assert (Fs.find (Demo.workdir ++ ["checkpoints"]) (fs Demo.stale_world)
          = Some (Fs.Dir Demo.old_run)) as H by (vm_compute; reflexivity).
  split; [exact H|].
  destruct (stale_checkpoints_cleared Spec.externals Demo.script "bin"
              (new_records "bin") 90 160 1 [8; 3] (Some [relu]) 32 1 10 5
              0.02%float GradientDescentOptimizer false "Confusion_Matrix"
              false Demo.stale_world Demo.old_run H) as (Hgone & _ & Hevs).
  split; [exact Hgone|exact Hevs].
Defined.

Lemma unknown_name_is_lookup_error_witness :
("SGD" ∉ optimizer_names)
  ∧ ∃ k,
      run Spec.externals (main Spec.externals Demo.script Demo.with_sgd)
          Demo.stale_world
      = Raised (KeyError k) (mkState Demo.stale_world [])
      ∧ (k = "SGD"
         ∨ ∃ names, args.activations Demo.with_sgd = Some names ∧ k ∈ names).
Proof.
  assert ("SGD" ∉ optimizer_names) as H.
  { intros Hin. unfold optimizer_names in Hin. in_cases Hin; discriminate. }
  split; [exact H|].
  exact (unknown_name_is_lookup_error Spec.externals Demo.script Demo.with_sgd
           Demo.stale_world (or_introl H)).
Defined.

Lemma mode_is_not_checked_against_channels_witness :
  channels (Demo.config_of Demo.with_pure None GradientDescentOptimizer) = 3
  ∧ same_but_prints
      (run Spec.externals Demo.train_pure_1 Demo.world)
      (run Spec.externals
         (train Spec.externals Demo.script "gray" (new_records "pure") 90 160
            1 [8; 3] (Some [relu]) 32 1 10 5 0.02%float
            GradientDescentOptimizer false "Confusion_Matrix" false)
         Demo.world).
Proof.
  pose proof (mode_is_not_checked_against_channels Spec.externals Demo.script)
    as [Hmain Htrain].
  split.
  - apply (Hmain Demo.with_pure Demo.world); [reflexivity|in_trace 1%nat].
  - apply Htrain.
Defined.

Lemma confusion_plot_iff_verbose_witness :
  let o := run Spec.externals (Demo.train_bin true false) Demo.stale_world in
  let o' := run Spec.externals (Demo.train_bin false false) Demo.stale_world in
  o = Done tt (final o)
  ∧ Fs.find (Demo.workdir ++ ["Confusion_Matrix.png"]) (fs (world (final o)))
    = Some (Fs.File (Fs.Plot ["left"; "right"; "up"]))
  ∧ EvPlotConfusion "Confusion_Matrix.png" ["left"; "right"; "up"]
    ∈ trace (final o)
  ∧ ∀ e, e ∈ trace (final o') → ¬ is_evaluation e.
Proof.
  intros o o'.
  assert (o = Done tt (final o)) as Ho by (by apply completes_Done).
  split; [exact Ho|]. split; [vm_compute; reflexivity|]. split.
  - apply (proj2 (proj2 (confusion_plot_iff_verbose Spec.externals Demo.script
             "bin" (new_records "bin") 90 160 1 [8; 3] (Some [relu]) 32 1 10
             5 0.02%float GradientDescentOptimizer true "Confusion_Matrix"
             false Demo.stale_world)) (final o) Ho).
    reflexivity.
  - apply (proj1 (proj2 (confusion_plot_iff_verbose Spec.externals Demo.script
             "bin" (new_records "bin") 90 160 1 [8; 3] (Some [relu]) 32 1 10
             5 0.02%float GradientDescentOptimizer false "Confusion_Matrix"
             false Demo.stale_world))).
    reflexivity.
Defined.

Lemma failed_run_has_cleared_witness :
  let o := run Spec.externals Demo.train_flat Demo.stale_world in
  Fs.find (Demo.workdir ++ ["checkpoints"]) (fs Demo.stale_world)
  = Some (Fs.Dir Demo.old_run)
  ∧ o = Raised (ConfigurationError "non-positive field or empty architecture")
               (final o)
  ∧ Fs.find (Demo.workdir ++ ["checkpoints"]) (fs (cleared Demo.stale_world))
    = None
  ∧ ∃ evs, trace (final o) = [EvExists checkpoints; EvRmtree checkpoints] ++ evs.
Proof.
  intros o.
  assert (Fs.find (Demo.workdir ++ ["checkpoints"]) (fs Demo.stale_world)
          = Some (Fs.Dir Demo.old_run)) as H by (vm_compute; reflexivity).
  assert (o = Raised (ConfigurationError
                        "non-positive field or empty architecture") (final o))
    as Ho by (vm_compute; reflexivity).
  split; [exact H|]. split; [exact Ho|].
  destruct (failed_run_has_cleared Spec.externals Demo.script "bin"
              (new_records "bin") 0 160 1 [8; 3] (Some [relu]) 32 1 10 5
              0.02%float GradientDescentOptimizer false "Confusion_Matrix"
              false Demo.stale_world Demo.old_run _ _ H Ho)
    as (Hgone & _ & Hevs & _).
  split; [exact Hgone|exact Hevs].
Defined.

Lemma relocation_when_destination_free_witness :
  let st := final (run Spec.externals (Demo.train_bin false false) Demo.world) in
  let src := Demo.workdir ++ ["checkpoints"] in
  let dst := parentdir Demo.script ++ ["checkpoints"] in
  Fs.find src (fs (world st)) = Some (Fs.Dir (Spec.snapshots Demo.kw_bin))
  ∧ Fs.find dst (fs (world st)) = None
  ∧ ∃ r',
      relocate Spec.externals Demo.script true st
      = Done tt (mkState (with_fs (world st) r')
                   (trace st ++ [EvMove checkpoints
                                   (Fs.join (parentdir Demo.script)
                                            "checkpoints")]))
      ∧ Fs.find dst r' = Some (Fs.Dir (Spec.snapshots Demo.kw_bin))
      ∧ Fs.find src r' = None.
Proof.
  intros st src dst.
  assert (Fs.find src (fs (world st))
          = Some (Fs.Dir (Spec.snapshots Demo.kw_bin))) as Hsrc
    by (vm_compute; reflexivity).
  assert (Fs.find dst (fs (world st)) = None) as Hdst
    by (vm_compute; reflexivity).
  assert (Fs.isdir (parentdir Demo.script) (fs (world st)) = true) as Hdir
    by (vm_compute; reflexivity).
  assert (¬ src `prefix_of` parentdir Demo.script) as Hnp.
  { intros [k Hk]. vm_compute in Hk. discriminate. }
  split; [exact Hsrc|]. split; [exact Hdst|].
  destruct (proj2 (proj2 (relocation_when_destination_free Spec.externals
              Demo.script "bin" (new_records "bin") 90 160 1 [8; 3]
              (Some [relu]) 32 1 10 5 0.02%float GradientDescentOptimizer
              false "Confusion_Matrix" true))
              st (Spec.snapshots Demo.kw_bin) Hsrc Hdst Hdir Hnp)
    as (r' & Hrel & Hd & Hs & _).
  exists r'. split; [exact Hrel|]. split; [exact Hd|exact Hs].
Defined.

(** * Further properties *)

(** ** The directory tree *)

Lemma find_app (p q : Fs.path) r :
  Fs.find (p ++ q) r = Fs.find p r ≫= Fs.find q.
Proof.
  revert r. induction p as [|c p IH]; intros r; [done|].
  destruct r as [ct|es]; [done|].
  rewrite <-app_comm_cons, !find_cons.
  destruct (es !! c) as [n|]; [apply IH|done].
Qed.

Lemma find_below_remove (p q : Fs.path) r :
  p ≠ [] → p `prefix_of` q → Fs.find q (Fs.remove p r) = None.
Proof. intros Hp [k ->]. by rewrite find_app, find_remove_eq. Qed.

Lemma find_below_missing (p q : Fs.path) r :
  Fs.find p r = None → p `prefix_of` q → Fs.find q r = None.
Proof. intros Hp [k ->]. by rewrite find_app, Hp. Qed.

(** Whatever has something below it is a directory. *)
Lemma find_above_isdir (p : Fs.path) c q r x :
  Fs.find (p ++ c :: q) r = Some x → Fs.isdir p r = true.
Proof.
  rewrite find_app. unfold Fs.isdir.
  destruct (Fs.find p r) as [[ct|es]|]; done.
Qed.

Lemma basename_snoc (p : Fs.path) c : Fs.basename (p ++ [c]) = c.
Proof. unfold Fs.basename. by rewrite last_snoc. Qed.

Lemma with_fs_same {S} (w : World S) : with_fs w (fs w) = w.
Proof. by destruct w. Qed.

(** [shutil.move] of something that does not exist raises and changes
    nothing. *)
Lemma move_missing (src dst : Fs.path) r :
  Fs.find src r = None → ∃ e, Fs.move src dst r = inl e.
Proof.
  intros Hsrc. unfold Fs.move, Fs.rename_into. rewrite Hsrc.
  destruct (Fs.find dst r) as [[ct|es]|] eqn:Hdst; [by eexists| |by eexists].
  rewrite bool_decide_eq_false_2 by congruence.
  destruct (Fs.exists_ _ _); by eexists.
Qed.

(** [shutil.move] to an existing directory: the source goes inside it, under
    its own name. *)
Lemma move_inside (src dst : Fs.path) c r es ds :
  Fs.find (src ++ [c]) r = Some (Fs.Dir es) →
  Fs.find dst r = Some (Fs.Dir ds) →
  src ++ [c] ≠ dst →
  Fs.find (dst ++ [c]) r = None →
  ¬ src ++ [c] `prefix_of` dst →
  ∃ r', Fs.move (src ++ [c]) dst r = inr r'
        ∧ Fs.find (dst ++ [c]) r' = Some (Fs.Dir es)
        ∧ Fs.find (src ++ [c]) r' = None
        ∧ Fs.isdir dst r' = true.
Proof.
  intros Hsrc Hdst Hne Hfree Hnp.
  destruct (move_fresh (src ++ [c]) dst c r es) as (r' & Hmv & Hd & Hs & _);
    [done|done|by unfold Fs.isdir; rewrite Hdst|done|].
  exists r'. unfold Fs.move. rewrite Hdst, bool_decide_eq_false_2 by done.
  rewrite basename_snoc. unfold Fs.exists_. rewrite Hfree.
  revert Hmv. unfold Fs.move. rewrite Hfree. intros Hmv.
  split_and!; [done..|]. by eapply (find_above_isdir dst c []).
Qed.


(** ** Strings and names *)

Lemma length_append (s t : string) :
  String.length (s +:+ t) = (String.length s + String.length t)%nat.
Proof. induction s as [|c s IH]; [done|]. simpl. by f_equal. Qed.

(** Two strings that end in [s] and in [t] are equal only when their fronts
    and the two ends are, or when one end is a proper end of the other. *)
Lemma append_eq_inv (a b s t : string) :
  a +:+ s = b +:+ t →
  (a = b ∧ s = t)
  ∨ (∃ c k, s = String c k +:+ t)
  ∨ (∃ c k, t = String c k +:+ s).
Proof.
  revert b. induction a as [|c a IH]; intros [|c' b] H.
  - by left.
  - right. left. by exists c', b.
  - right. right. by exists c, a.
  - simpl in H. injection H as -> H.
    destruct (IH _ H) as [[-> ->]|[?|?]]; [by left|by right; left|by right; right].
Qed.

(** A string is not a proper end of a string that is no longer than it is
    by more than one character and differs from it there. *)
Ltac no_proper_end H :=
  let c := fresh "c" in
  let k := fresh "k" in
  destruct H as (c & k & H);
  destruct k as [|? k];
  [ simpl in H; discriminate H
  | apply (f_equal String.length) in H; simpl in H;
    rewrite ?length_append in H; simpl in H; lia ].

Lemma activation_names_known n :
  n ∈ activation_names → is_Some (activations_dict !! n).
Proof. intros H. unfold activation_names in H. in_cases H; subst; by eexists. Qed.

Lemma optimizer_names_known n :
  n ∈ optimizer_names → is_Some (optimizer_dict !! n).
Proof. intros H. unfold optimizer_names in H. in_cases H; subst; by eexists. Qed.

(** The comprehension stops at the first name that is not a key. *)
Lemma comprehension_first_unknown {S V} (d : gmap string V) pre k post
    (st : State S) :
  Forall (λ n, is_Some (d !! n)) pre → d !! k = None →
  comprehension (getitem d) (pre ++ k :: post) st = Raised (KeyError k) st.
Proof.
  intros Hpre Hk. induction Hpre as [|n pre [f Hn] _ IH].
  - cbn [app comprehension]. unfold mbind, M_bind. by rewrite getitem_eq, Hk.
  - rewrite <-app_comm_cons. cbn [comprehension]. unfold mbind, M_bind.
    by rewrite getitem_eq, Hn, IH.
Qed.

(** Calls that keep the files, and calls that return, make scripts that
    do. *)
Section closure.
Context {S : Type}.

Lemma keeps_ret {A} (a : A) : keeps (S:=S) (mret a).
Proof. by intros st. Qed.

Lemma keeps_lift {A} (r : exn + A) : keeps (S:=S) (lift r).
Proof. by destruct r; intros st. Qed.

Lemma keeps_print s : keeps (S:=S) (print s).
Proof. by intros st. Qed.

Lemma keeps_call {A} ev (op : Call S A) : keeps_files op → keeps (call ev op).
Proof.
  intros H st. rewrite call_eq. specialize (H (world st)).
  by destruct (op (world st)).
Qed.

Lemma keeps_bind {A B} (m : M S A) (k : A → M S B) :
  keeps m → (∀ a, keeps (k a)) → keeps (m ≫= k).
Proof.
  intros Hm Hk st. specialize (Hm st). unfold mbind, M_bind.
  destruct (m st) as [a st'|e st']; [|done].
  destruct (Hk a st') as [-> ->]. done.
Qed.





End closure.

(** The file operations raise nothing but their own exceptions. *)
Section more.
Context (X : Externals).
Variable almost_current : Fs.path.

Local Abbreviation St := (State (ext_state X)).

Section train_more.
Variables (mode : string) (records : list string) (height width channels : Z)
  (architecture : list Z) (activations : option (list activation_fn))
  (batch_size epochs num_steps save_step : Z) (learning_rate : float)
  (optimizer : optimizer_cls) (verbose : bool) (name : string) (move : bool).

Local Abbreviation the_train :=
  (train X almost_current mode records height width channels architecture
     activations batch_size epochs num_steps save_step learning_rate
     optimizer verbose name move).

Local Abbreviation the_kw :=
  (Build_ConfigKw height width channels architecture activations batch_size
     epochs num_steps save_step learning_rate optimizer).

Local Abbreviation the_trace :=
  (script_trace almost_current mode records the_kw verbose name move).

Lemma script_trace_no_rmtree s r p : EvRmtree p ∉ the_trace false s r.
Proof.
  unfold script_trace, events_before_fit, events_after_fit.
  destruct verbose, move; cbn [app]; intros H; in_cases H; discriminate.
Qed.

(** With nothing at [checkpoints/], the check is all that precedes the rest
    of [train]. *)
Lemma train_nothing_there w :
  Fs.find (cwd w ++ ["checkpoints"]) (fs w) = None →
  run X the_train w
  = proceed X almost_current mode records the_kw verbose name move
      (mkState w [EvExists checkpoints]).
Proof.
  intros H. unfold run, train, clear_checkpoints, mbind, M_bind.
  rewrite exists_eq. cbn [world trace Fs.resolve checkpoints].
  unfold Fs.exists_. by rewrite H.
Qed.

(** With a regular file at [checkpoints], the removal raises. *)
Lemma train_file_there w c :
  Fs.find (cwd w ++ ["checkpoints"]) (fs w) = Some (Fs.File c) →
  run X the_train w
  = Raised (OSError (cwd w ++ ["checkpoints"]))
           (mkState w [EvExists checkpoints; EvRmtree checkpoints]).
Proof.
  intros H. unfold run, train, clear_checkpoints, mbind, M_bind.
  rewrite exists_eq. cbn [world trace Fs.resolve checkpoints].
  unfold Fs.exists_. rewrite H. unfold shutil_rmtree. rewrite call_eq.
  unfold fs_call, Fs.rmtree. cbn [world trace Fs.resolve checkpoints].
  by rewrite H.
Qed.

(** X1. When nothing exists at [checkpoints/], [train] removes nothing: the
    run is the rest of [train] started in the world as it is, after the
    check alone, and [shutil.rmtree] is never called. *)
Theorem nothing_to_clear w :
  Fs.find (cwd w ++ ["checkpoints"]) (fs w) = None →
  run X the_train w
  = proceed X almost_current mode records the_kw verbose name move
      (mkState w [EvExists checkpoints])
  ∧ ∀ p, EvRmtree p ∉ trace (final (run X the_train w)).
Proof.
  intros H. split; [by apply train_nothing_there|].
  intros p Hin. destruct (train_trace X almost_current mode records height
    width channels architecture activations batch_size epochs num_steps
    save_step learning_rate optimizer verbose name move w)
    as (s & r & Hpre & _).
  cbn zeta in Hpre. revert Hpre. cbn [Fs.resolve checkpoints].
  unfold Fs.exists_. rewrite H. intros Hpre.
  eapply script_trace_no_rmtree, prefix_elem_of; done.
Qed.

(** X2. When [checkpoints] is a regular file, [os.path.exists] is true and
    [shutil.rmtree] raises: [train] ends there, with nothing changed and no
    component constructed. *)
Theorem checkpoints_file_stops_run w c :
  Fs.find (cwd w ++ ["checkpoints"]) (fs w) = Some (Fs.File c) →
  run X the_train w
  = Raised (OSError (cwd w ++ ["checkpoints"]))
           (mkState w [EvExists checkpoints; EvRmtree checkpoints]).
Proof.
  intros H. unfold run, train, clear_checkpoints, mbind, M_bind.
  rewrite exists_eq. cbn [world trace Fs.resolve checkpoints].
  unfold Fs.exists_. rewrite H.
  unfold shutil_rmtree. rewrite call_eq. unfold fs_call, Fs.rmtree.
  cbn [world trace Fs.resolve checkpoints]. by rewrite H.
Qed.

(** X8. The calls of every run of [train] are an initial segment of the
    script: the check, the removal if something was there, [Config],
    [DataHolder], [tf.Graph], [DFN], [Trainer], the two prints with
    [get_status] between them, [fit], the four calls of the evaluation if
    [verbose], the move if [move]; all of them when the run completes.  So
    every component is constructed at most once, in this order, and [fit] is
    called at most once. *)
Theorem calls_follow_the_script w :
  ∃ status record,
    let full :=
      the_trace (Fs.exists_ (cwd w ++ ["checkpoints"]) (fs w)) status record in
    trace (final (run X the_train w)) `prefix_of` full
    ∧ (∀ st, run X the_train w = Done tt st → trace st = full)
    ∧ (∀ pre v post,
         trace (final (run X the_train w)) = pre ++ EvFit v :: post →
         Forall (λ e, ¬ is_fit e) pre ∧ Forall (λ e, ¬ is_fit e) post).
Proof.
  destruct (train_trace X almost_current mode records height width channels
              architecture activations batch_size epochs num_steps save_step
              learning_rate optimizer verbose name move w)
    as (s & r & Hpre & Hdone & _).
  exists s, r. cbn zeta in *. cbn [Fs.resolve checkpoints] in *.
  split_and!; [done..|].
  intros pre v post H. rewrite H in Hpre. destruct Hpre as [k Hk].
  unfold script_trace in Hk. rewrite <-app_assoc in Hk. cbn [app] in Hk.
  apply (split_at_unique is_fit) in Hk as (-> & _ & Hpost);
    [|apply events_before_fit_no_fit|apply events_after_fit_no_fit|done..].
  split; [apply events_before_fit_no_fit|].
  pose proof (events_after_fit_no_fit almost_current verbose name move r) as Ha.
  rewrite <-Hpost in Ha. by apply Forall_app in Ha as [? _].
Qed.

Lemma script_trace_move c s r src dst :
  EvMove src dst ∈ the_trace c s r →
  move = true
  ∧ the_trace c s r
    = removelast (the_trace c s r)
      ++ [EvMove checkpoints (Fs.join (parentdir almost_current) "checkpoints")]
  ∧ ∀ src' dst', EvMove src' dst' ∉ removelast (the_trace c s r).
Proof.
  unfold script_trace, events_before_fit, events_after_fit.
  destruct c, verbose, move; cbn [app removelast]; intros H.
  all: try (in_cases H; discriminate).
  all: split_and!; [done|done|].
  all: intros ?? H'; in_cases H'; discriminate.
Qed.

(** X9. [shutil.move] is the last thing [train] does, and it does it only
    with [move] set and after everything else has returned: a run in which
    the move was called has called [fit], has plotted the confusion matrix
    if [verbose] is set, and has moved [checkpoints] to
    [parentdir/checkpoints] and nothing else. *)
Theorem relocation_comes_last w src dst :
  let t := trace (final (run X the_train w)) in
  EvMove src dst ∈ t →
  move = true
  ∧ src = checkpoints
  ∧ dst = Fs.join (parentdir almost_current) "checkpoints"
  ∧ last t = Some (EvMove src dst)
  ∧ EvFit verbose ∈ t
  ∧ (verbose = true → EvPlotConfusion (name +:+ ".png") classes ∈ t).
Proof.
  intros t Hin.
  destruct (train_trace X almost_current mode records height width channels
              architecture activations batch_size epochs num_steps save_step
              learning_rate optimizer verbose name move w)
    as (s & r & Hpre & _ & _).
  cbn zeta in Hpre. fold t in Hpre.
  set (full := the_trace _ s r) in *.
  assert (EvMove src dst ∈ full) as Hfull by by eapply prefix_elem_of.
  destruct (script_trace_move _ s r src dst Hfull) as (Hmove & Hlast & Hnone).
  fold full in Hlast, Hnone.
  assert (t = full) as Ht.
  { rewrite Hlast in Hpre. apply prefix_snoc_inv in Hpre as [Hp| ->]; [|done].
    destruct (Hnone src dst). by eapply prefix_elem_of. }
  assert (EvMove src dst
          = EvMove checkpoints (Fs.join (parentdir almost_current) "checkpoints"))
    as [= -> ->].
  { rewrite Hlast in Hfull. apply elem_of_app in Hfull as [Hx|Hx].
    - by destruct (Hnone src dst).
    - by apply list_elem_of_singleton in Hx. }
  rewrite Ht. split_and!; [done|done|done| | |].
  - by rewrite Hlast, last_snoc.
  - unfold full, script_trace. apply elem_of_app. right. by left.
  - intros Hv. unfold full, script_trace, events_after_fit. rewrite Hv.
    apply elem_of_app. right. apply list_elem_of_further, elem_of_app. left.
    do 3 apply list_elem_of_further. apply list_elem_of_here.
Qed.

Lemma train_starts w :
  ∃ evs, trace (final (run X the_train w)) = EvExists checkpoints :: evs.
Proof.
  unfold_script. cbn beta. destruct verbose, move.
  all: repeat step.
  all: by eexists.
Qed.

Lemma proceed_keeps kw :
  quiet X → move = false →
  keeps (proceed X almost_current mode records kw verbose name move).
Proof.
  intros [] ->. unfold proceed, build_and_fit, evaluate, relocate.
  repeat first
    [ apply keeps_ret | apply keeps_print | apply keeps_lift
    | apply keeps_call; done
    | apply keeps_bind; [|intros ?]
    | match goal with
      | |- keeps (if ?b then _ else _) => destruct b
      | |- keeps (match ?p with (_, _) => _ end) => destruct p
      end ].
Qed.



(** X18. The record the evaluation reconstructs is the one
    [DataHolder.get_valid_tfrecord] returned: [train] reads the validation
    data through the [DataHolder], not by a name of its own. *)
Theorem validation_record_comes_from_data_holder w record :
  EvReconstruct record ∈ trace (final (run X the_train w)) →
  verbose = true
  ∧ ∃ d w1 w2, get_valid_tfrecord X d w1 = Done record w2.
Proof.
  unfold_script. cbn beta. destruct verbose, move.
  all: repeat step.
  all: intros Hin; in_cases Hin; try discriminate.
  all: injection Hin as ->; split; [done|]; do 3 eexists; eassumption.
Qed.

(** X15. [train] writes no file of its own.  With components that leave the
    directory tree alone and [move] unset, a run, however it ends, leaves
    the tree as it found it but for the directory [checkpoints/], which is
    gone if it was there, and leaves the working directory where it was. *)
Theorem train_writes_nothing_itself w :
  quiet X → move = false →
  let o := run X the_train w in
  cwd (world (final o)) = cwd w
  ∧ fs (world (final o))
    = match Fs.find (cwd w ++ ["checkpoints"]) (fs w) with
      | Some (Fs.Dir _) => Fs.remove (cwd w ++ ["checkpoints"]) (fs w)
      | _ => fs w
      end.
Proof.
  intros Hq Hm o. subst o.
  destruct (Fs.find (cwd w ++ ["checkpoints"]) (fs w)) as [[c|es]|] eqn:H.
  - by rewrite (train_file_there w c H).
  - rewrite (train_after_clear X almost_current mode records height width
               channels architecture activations batch_size epochs num_steps
               save_step learning_rate optimizer verbose name move w es H).
    by destruct (proceed_keeps the_kw Hq Hm
                   (mkState (cleared w)
                      [EvExists checkpoints; EvRmtree checkpoints]))
      as [-> ->].
  - rewrite (train_nothing_there w H).
    by destruct (proceed_keeps the_kw Hq Hm (mkState w [EvExists checkpoints]))
      as [-> ->].
Qed.


End train_more.

(** X3. When the clearing of lines 85-86 returns, nothing exists at
    [checkpoints/] or below it, every path that is neither below nor above
    it is as before, the directories above it are still directories, and
    the working directory and the state of the components are untouched. *)
Theorem clearing_spares_the_rest w t st' :
  clear_checkpoints X (mkState w t) = Done tt st' →
  let src := cwd w ++ ["checkpoints"] in
  cwd (world st') = cwd w
  ∧ ext (world st') = ext w
  ∧ (∀ q, src `prefix_of` q → Fs.find q (fs (world st')) = None)
  ∧ (∀ q, ¬ src `prefix_of` q → ¬ q `prefix_of` src →
          Fs.find q (fs (world st')) = Fs.find q (fs w))
  ∧ (∀ q, ¬ src `prefix_of` q → Fs.isdir q (fs w) = true →
          Fs.isdir q (fs (world st')) = true).
Proof.
  unfold clear_checkpoints, mbind, M_bind. rewrite exists_eq.
  cbn [world trace Fs.resolve checkpoints]. unfold Fs.exists_.
  destruct (Fs.find (cwd w ++ ["checkpoints"]) (fs w)) as [n|] eqn:H.
  - unfold shutil_rmtree. rewrite call_eq. unfold fs_call, Fs.rmtree.
    cbn [world trace Fs.resolve checkpoints]. rewrite H.
    destruct n as [c|es]; [done|]. intros [= <-]. cbn [world cwd ext fs with_fs].
    split_and!; [done|done|..].
    + intros q Hq. apply find_below_remove; [by destruct (cwd w)|done].
    + intros q ??. by apply find_remove_ne.
    + intros q ??. by apply isdir_remove.
  - intros [= <-]. cbn [world]. split_and!; [done|done| |done|done].
    intros q Hq. by eapply find_below_missing.
Qed.


(** [main] resolves the names and calls [train], or ends with [KeyError]
    before anything is done. *)
Lemma main_resolves a w :
  (∃ k, run X (main X almost_current a) w = Raised (KeyError k) (mkState w []))
  ∨ (∃ acts opt,
        resolved (args.activations a) acts
        ∧ optimizer_dict !! args.optimizer a = Some opt
        ∧ run X (main X almost_current a) w
          = run X (train X almost_current (args.mode a)
                     (new_records (args.mode a)) (args.height a)
                     (args.width a) (channels_of_mode (args.mode a))
                     (args.architecture a) acts (args.batch_size a)
                     (args.epochs a) (args.num_steps a) (args.save_step a)
                     (args.learning_rate a) opt (args.verbose a)
                     (args.name a) (args.move a)) w).
Proof.
  unfold run, main. cbn zeta. unfold mbind, M_bind.
  destruct (args.activations a) as [names|] eqn:Hacts.
  - destruct (comprehension_getitem activations_dict names
                (mkState (S:=ext_state X) w []))
      as [(fns & Hc & Hall)|(k & Hc & Hk & Hd)]; rewrite Hc.
    + cbn [mret M_ret]. rewrite getitem_eq.
      destruct (optimizer_dict !! args.optimizer a) as [opt|] eqn:Ho.
      * right. by exists (Some fns), opt.
      * left. by eexists.
    + left. by exists k.
  - cbn [mret M_ret]. rewrite getitem_eq.
    destruct (optimizer_dict !! args.optimizer a) as [opt|] eqn:Ho.
    + right. by exists None, opt.
    + left. by eexists.
Qed.

(** X4. The activation names are looked up before the optimizer name, in
    their order: [main] ends with [KeyError] for the first activation name
    that is not documented, whatever the names after it and the optimizer
    name are, and nothing has been done. *)
Theorem first_unknown_activation_is_reported a w pre k post :
  args.activations a = Some (pre ++ k :: post) →
  Forall (λ n, n ∈ activation_names) pre →
  k ∉ activation_names →
  run X (main X almost_current a) w = Raised (KeyError k) (mkState w []).
Proof.
  intros Ha Hpre Hk. unfold run, main. cbn zeta. unfold mbind, M_bind.
  rewrite Ha, (comprehension_first_unknown activations_dict pre k post); [done| |].
  - eapply Forall_impl; [done|]. apply activation_names_known.
  - by apply activations_dict_unknown.
Qed.

(** X5. With documented names only, [main] raises nothing itself: the run
    is the run of [train] with the functions the dictionaries hold for the
    names, and it begins with the check for [checkpoints]. *)
Theorem documented_names_reach_train a w :
  documented a →
  ∃ acts opt,
    resolved (args.activations a) acts
    ∧ optimizer_dict !! args.optimizer a = Some opt
    ∧ run X (main X almost_current a) w
      = run X (train X almost_current (args.mode a)
                 (new_records (args.mode a)) (args.height a) (args.width a)
                 (channels_of_mode (args.mode a)) (args.architecture a) acts
                 (args.batch_size a) (args.epochs a) (args.num_steps a)
                 (args.save_step a) (args.learning_rate a) opt
                 (args.verbose a) (args.name a) (args.move a)) w
    ∧ ∃ evs, trace (final (run X (main X almost_current a) w))
             = EvExists checkpoints :: evs.
Proof.
  intros [Hopt Hacts].
  destruct (main_run X almost_current a w)
    as [(k & _ & Hk)|(acts0 & opt0 & _ & _ & _)].
  { exfalso. destruct Hk as [(names & Hs & Hin & Hnone)|[-> Hnone]].
    - pose proof (Hacts names Hs) as Hall.
      rewrite Forall_forall in Hall.
      destruct (activation_names_known k (Hall k Hin)). congruence.
    - destruct (optimizer_names_known _ Hopt). congruence. }
  destruct (main_resolves a w) as [[k Hk]|(acts & opt & Hr & Ho & Hrun)].
  { exfalso.
    destruct (main_run X almost_current a w)
      as [(k' & _ & Hk')|(? & ? & _ & _ & Hrun')].
    - destruct Hk' as [(names & Hs & Hin & Hnone)|[-> Hnone]].
      + pose proof (Hacts names Hs) as Hall. rewrite Forall_forall in Hall.
        destruct (activation_names_known k' (Hall k' Hin)). congruence.
      + destruct (optimizer_names_known _ Hopt). congruence.
    - rewrite Hk in Hrun'. unfold run in Hrun'.
      destruct (train_starts (args.mode a) (new_records (args.mode a))
                  (args.height a) (args.width a)
                  (channels_of_mode (args.mode a)) (args.architecture a) x
                  (args.batch_size a) (args.epochs a) (args.num_steps a)
                  (args.save_step a) (args.learning_rate a) x0
                  (args.verbose a) (args.name a) (args.move a) w)
        as [evs Hevs].
      unfold run in Hevs. rewrite <-Hrun' in Hevs. discriminate. }
  exists acts, opt. split_and!; [done..|]. rewrite Hrun. apply train_starts.
Qed.

(** X6. Every hyperparameter of the command line reaches [Config] as it
    is: the [Config] of a run of [main] is constructed with the height,
    width, architecture, batch size, epochs, steps, save step and learning
    rate of the namespace, the channel count of its mode, the functions
    [activations_dict] holds for its activation names (none when there are
    none), and the class [optimizer_dict] holds for its optimizer name. *)
Theorem config_receives_the_namespace a w kw :
  EvConfig kw ∈ trace (final (run X (main X almost_current a) w)) →
  height kw = args.height a
  ∧ width kw = args.width a
  ∧ channels kw = channels_of_mode (args.mode a)
  ∧ architecture kw = args.architecture a
  ∧ resolved (args.activations a) (activations kw)
  ∧ batch_size kw = args.batch_size a
  ∧ epochs kw = args.epochs a
  ∧ num_steps kw = args.num_steps a
  ∧ save_step kw = args.save_step a
  ∧ learning_rate kw = args.learning_rate a
  ∧ optimizer_dict !! args.optimizer a = Some (optimizer kw).
Proof.
  destruct (main_resolves a w) as [[k ->]|(acts & opt & Hr & Ho & ->)].
  { intros H. by apply elem_of_nil in H. }
  intros H.
  destruct (train_trace X almost_current (args.mode a)
              (new_records (args.mode a)) (args.height a) (args.width a)
              (channels_of_mode (args.mode a)) (args.architecture a) acts
              (args.batch_size a) (args.epochs a) (args.num_steps a)
              (args.save_step a) (args.learning_rate a) opt (args.verbose a)
              (args.name a) (args.move a) w) as (s & r & Hpre & _).
  cbn zeta in Hpre. eapply prefix_elem_of in H; [|done].
  apply script_trace_config in H as ->. by cbn.
Qed.

(** X7. The three record names of a mode are three different names, and a
    name belongs to one mode only: two modes that share a record name are
    the same mode. *)
Theorem record_names_are_distinct :
  (∀ m, NoDup (new_records m))
  ∧ (∀ m m' x, x ∈ new_records m → x ∈ new_records m' → m = m').
Proof.
  assert (∀ m m' s t,
            s ∈ records → t ∈ records → m +:+ s = m' +:+ t → m = m' ∧ s = t)
    as Hinv.
  { intros m m' s t Hs Ht H. unfold records in Hs, Ht.
    apply append_eq_inv in H as [?|[H|H]]; [done|..].
    all: in_cases Hs; in_cases Ht; subst s t; no_proper_end H. }
  split.
  - intros m. unfold new_records. cbn [foldl app].
    repeat (apply NoDup_cons; split);
      [| |by intros ?%elem_of_nil|apply NoDup_nil_2].
    all: intros H; in_cases H.
    all: apply Hinv in H as [_ [=]]; unfold records;
      repeat first [apply list_elem_of_here | apply list_elem_of_further].
  - intros m m' x. unfold new_records. cbn [foldl app].
    intros H H'. in_cases H; in_cases H'; subst x.
    all: apply Hinv in H' as [? _];
      [done|unfold records;
            repeat first [apply list_elem_of_here | apply list_elem_of_further]..].
Qed.

(** X10. With [move] set and nothing at [checkpoints/], the relocation
    raises and leaves the world as it was. *)
Theorem relocation_without_checkpoints_raises (st : St) :
  Fs.find (cwd (world st) ++ ["checkpoints"]) (fs (world st)) = None →
  ∃ e,
    relocate X almost_current true st
    = Raised e (mkState (world st)
                  (trace st ++ [EvMove checkpoints
                                  (Fs.join (parentdir almost_current)
                                           "checkpoints")])).
Proof.
  intros H.
  destruct (move_missing _ (parentdir almost_current ++ ["checkpoints"]) _ H)
    as [e He].
  exists e. unfold relocate, shutil_move. rewrite call_eq. unfold fs_call.
  cbn [Fs.resolve Fs.join checkpoints]. by rewrite He.
Qed.

(** X11. With [move] set, when [parentdir/checkpoints] is a directory
    already (and not the one to move, nor below it) and has no entry
    [checkpoints], the directory [checkpoints/] is moved inside it: it ends
    up at [parentdir/checkpoints/checkpoints], and [parentdir/checkpoints]
    is still a directory. *)
Theorem relocation_nests_in_existing_directory (st : St) es ds :
  let w := world st in
  let src := cwd w ++ ["checkpoints"] in
  let dst := parentdir almost_current ++ ["checkpoints"] in
  Fs.find src (fs w) = Some (Fs.Dir es) →
  Fs.find dst (fs w) = Some (Fs.Dir ds) →
  src ≠ dst →
  Fs.find (dst ++ ["checkpoints"]) (fs w) = None →
  ¬ src `prefix_of` dst →
  ∃ r',
    relocate X almost_current true st
    = Done tt (mkState (with_fs w r')
                 (trace st ++ [EvMove checkpoints
                                 (Fs.join (parentdir almost_current)
                                          "checkpoints")]))
    ∧ Fs.find (dst ++ ["checkpoints"]) r' = Some (Fs.Dir es)
    ∧ Fs.find src r' = None
    ∧ Fs.isdir dst r' = true.
Proof.
  intros w src dst Hsrc Hdst Hne Hfree Hnp.
  destruct (move_inside (cwd w) dst "checkpoints" (fs w) es ds)
    as (r' & Hmv & ?); [done..|].
  exists r'. split; [|done].
  unfold relocate, shutil_move. rewrite call_eq. unfold fs_call.
  cbn [Fs.resolve Fs.join checkpoints]. fold w. fold dst. by rewrite Hmv.
Qed.

(** X12. With [move] set, when [parentdir/checkpoints] is a directory that
    has an entry [checkpoints] already, the relocation raises [shutil.Error]
    and moves nothing. *)
Theorem relocation_refused_when_nested_exists (st : St) ds :
  let w := world st in
  let src := cwd w ++ ["checkpoints"] in
  let dst := parentdir almost_current ++ ["checkpoints"] in
  Fs.find dst (fs w) = Some (Fs.Dir ds) →
  src ≠ dst →
  Fs.exists_ (dst ++ ["checkpoints"]) (fs w) = true →
  relocate X almost_current true st
  = Raised (ShutilError (dst ++ ["checkpoints"]))
           (mkState w (trace st ++ [EvMove checkpoints
                                      (Fs.join (parentdir almost_current)
                                               "checkpoints")])).
Proof.
  intros w src dst Hdst Hne Hex.
  unfold relocate, shutil_move. rewrite call_eq. unfold fs_call, Fs.move.
  cbn [Fs.resolve Fs.join checkpoints]. fold w. fold dst. rewrite Hdst.
  rewrite bool_decide_eq_false_2 by done. rewrite basename_snoc.
  by rewrite Hex.
Qed.

(** X13. With [move] set, when the working directory is [parentdir] itself,
    source and destination are the same directory and the relocation leaves
    everything where it is. *)
Theorem relocation_onto_itself (st : St) es :
  cwd (world st) = parentdir almost_current →
  Fs.find (cwd (world st) ++ ["checkpoints"]) (fs (world st))
  = Some (Fs.Dir es) →
  relocate X almost_current true st
  = Done tt (mkState (world st)
               (trace st ++ [EvMove checkpoints
                               (Fs.join (parentdir almost_current)
                                        "checkpoints")])).
Proof.
  intros Hcwd Hsrc.
  unfold relocate, shutil_move. rewrite call_eq. unfold fs_call, Fs.move.
  cbn [Fs.resolve Fs.join checkpoints]. rewrite <-Hcwd, Hsrc.
  rewrite bool_decide_eq_true_2 by done. by rewrite with_fs_same.
Qed.

(** X14. When the script is run from its own directory, which is not the
    root, and nothing exists yet one level up at [checkpoints], a set [move]
    relocates the directory [checkpoints/] there: no other condition is
    needed. *)
Theorem relocation_from_script_directory (st : St) p d f es :
  almost_current = p ++ [d; f] →
  cwd (world st) = currentdir almost_current →
  Fs.find (p ++ [d; "checkpoints"]) (fs (world st)) = Some (Fs.Dir es) →
  Fs.find (p ++ ["checkpoints"]) (fs (world st)) = None →
  ∃ r',
    relocate X almost_current true st
    = Done tt (mkState (with_fs (world st) r')
                 (trace st ++ [EvMove checkpoints
                                 (Fs.join (parentdir almost_current)
                                          "checkpoints")]))
    ∧ Fs.find (p ++ ["checkpoints"]) r' = Some (Fs.Dir es)
    ∧ Fs.find (p ++ [d; "checkpoints"]) r' = None.
Proof.
  intros -> Hcwd Hsrc Hdst.
  assert (currentdir (p ++ [d; f]) = p ++ [d]) as Hcur.
  { unfold currentdir, Fs.dirname. change [d; f] with ([d] ++ [f]).
    by rewrite app_assoc, removelast_last. }
  assert (parentdir (p ++ [d; f]) = p) as Hpar.
  { unfold parentdir. rewrite Hcur. unfold Fs.dirname.
    by rewrite removelast_last. }
  rewrite Hcur in Hcwd.
  assert (cwd (world st) ++ ["checkpoints"] = p ++ [d; "checkpoints"]) as Hs.
  { by rewrite Hcwd, <-app_assoc. }
  destruct (move_fresh (p ++ [d; "checkpoints"]) p "checkpoints"
              (fs (world st)) es) as (r' & Hmv & Hd & Hsr & _); [done|done| |..].
  - by eapply (find_above_isdir p d ["checkpoints"]).
  - intros [k Hk]. apply (f_equal length) in Hk.
    rewrite !length_app in Hk. cbn in Hk. lia.
  - exists r'. split; [|done].
    unfold relocate, shutil_move. rewrite call_eq. unfold fs_call.
    cbn [Fs.resolve Fs.join checkpoints]. rewrite Hpar, Hs. by rewrite Hmv.
Qed.

End more.

(** ** The configuration is printed before the fit *)

Section status.
Context (X : Externals).
Variable almost_current : Fs.path.
Variables (mode : string) (records : list string) (height width channels : Z)
  (architecture : list Z) (activations : option (list activation_fn))
  (batch_size epochs num_steps save_step : Z) (learning_rate : float)
  (optimizer : optimizer_cls) (verbose : bool) (name : string) (move : bool).

Local Abbreviation the_train :=
  (train X almost_current mode records height width channels architecture
     activations batch_size epochs num_steps save_step learning_rate
     optimizer verbose name move).

Local Abbreviation the_kw :=
  (Build_ConfigKw height width channels architecture activations batch_size
     epochs num_steps save_step learning_rate optimizer).

Lemma rmtree_done (w w' : World (ext_state X)) u :
  fs_call Fs.rmtree checkpoints w = Done u w' →
  Fs.exists_ (cwd w ++ ["checkpoints"]) (fs w) = true ∧ w' = cleared w.
Proof.
  unfold fs_call, Fs.rmtree, Fs.exists_, cleared.
  cbn [Fs.resolve checkpoints].
  destruct (Fs.find _ _) as [[c|es]|]; [done| |done].
  by intros [= _ <-].
Qed.

Lemma train_up_to_fit w v :
  EvFit v ∈ trace (final (run X the_train w)) →
  v = verbose
  ∧ ∃ config w1 data w2 graph w3 network w4 trainer w5 status w6 post,
      Config X the_kw (world_of_run w) = Done config w1
      ∧ DataHolder X config records w1 = Done data w2
      ∧ tf_Graph X w2 = Done graph w3
      ∧ DFN X graph config w3 = Done network w4
      ∧ Trainer X graph config network data w4 = Done trainer w5
      ∧ get_status X config w5 = Done status w6
      ∧ trace (final (run X the_train w))
        = events_before_fit mode records the_kw
            (Fs.exists_ (cwd w ++ ["checkpoints"]) (fs w)) status
          ++ EvFit verbose :: post
      ∧ Forall (λ e, ¬ is_fit e) post.
Proof.
  unfold world_of_run, events_before_fit. unfold_script. cbn beta.
  rewrite exists_eq. cbn [world trace Fs.resolve checkpoints app].
  destruct (Fs.exists_ (cwd w ++ ["checkpoints"]) (fs w)) eqn:Hex.
  all: destruct verbose, move.
  all: repeat step.
  all: intros Hin.
  all: first
    [ by (exfalso;
          repeat (apply elem_of_cons in Hin as [Hin|Hin]; [discriminate|]);
          apply elem_of_nil in Hin)
    | idtac ].
  all: in_cases Hin; try discriminate; injection Hin as ->.
  all: split; [done|].
  all: try match goal with
           | H : fs_call Fs.rmtree _ _ = Done _ _ |- _ =>
               apply rmtree_done in H as [_ ->]
           end.
  all: do 13 eexists.
  all: split_and!; [eassumption..| |].
  all: first [ reflexivity | repeat constructor; by intros [] ].
Qed.

(** C8. In every run of [train], whatever precedes the call of
    [Trainer.fit] ends with the print of [params:], a line feed, the status
    and a line feed, where the status is what [get_status] returned for the
    [Config] of this run: the object the constructor returned for the
    keyword values of the call, the one [DataHolder], [DFN] and [Trainer]
    were constructed with.  Nothing before that print is a call of [fit]. *)
Theorem status_printed_before_fit w pre v post :
  trace (final (run X the_train w)) = pre ++ EvFit v :: post →
  v = verbose
  ∧ Forall (λ e, ¬ is_fit e) pre
  ∧ ∃ config w1 data w2 graph w3 network w4 trainer w5 status w6 pre',
      Config X the_kw (world_of_run w) = Done config w1
      ∧ DataHolder X config records w1 = Done data w2
      ∧ tf_Graph X w2 = Done graph w3
      ∧ DFN X graph config w3 = Done network w4
      ∧ Trainer X graph config network data w4 = Done trainer w5
      ∧ get_status X config w5 = Done status w6
      ∧ pre = pre'
              ++ [EvPrint (line_feed +:+ "Training in the " +:+ mode
                           +:+ " data" +:+ line_feed);
                  EvGetStatus;
                  EvPrint ("params:" +:+ line_feed +:+ status +:+ line_feed)].
Proof.
  intros H.
  assert (EvFit v ∈ trace (final (run X the_train w))) as Hin.
  { rewrite H. apply elem_of_app. right. apply list_elem_of_here. }
  destruct (train_up_to_fit w v Hin)
    as (Hv & config & w1 & data & w2 & graph & w3 & network & w4 & trainer
        & w5 & status & w6 & post' & HC & HD & HG & HN & HT & HS & Htr & Hpost).
  rewrite Htr in H.
  apply (split_at_unique is_fit) in H as (Hpre & _ & _);
    [|apply events_before_fit_no_fit|done..].
  split; [done|]. split.
  { rewrite Hpre. apply events_before_fit_no_fit. }
  exists config, w1, data, w2, graph, w3, network, w4, trainer, w5, status, w6.
  exists ([EvExists checkpoints]
          ++ (if Fs.exists_ (cwd w ++ ["checkpoints"]) (fs w)
              then [EvRmtree checkpoints] else [])
          ++ [EvConfig the_kw; EvDataHolder records; EvGraph; EvDFN;
              EvTrainer]).
  split_and!; [done..|].
  rewrite Hpre. unfold events_before_fit. by destruct (Fs.exists_ _ _).
Qed.

End status.

(** ** The records a run binds *)

Section binding.
Context (X : Externals).
Variable almost_current : Fs.path.

(** Once [Config] has returned, [DataHolder] is the next call. *)
Lemma proceed_after_config mode records kw verbose name move
    (st : State (ext_state X)) c w1 :
  Config X kw (world st) = Done c w1 →
  ∃ post,
    trace (final (proceed X almost_current mode records kw verbose name move st))
    = trace st ++ EvConfig kw :: EvDataHolder records :: post.
Proof.
  intros H. unfold_script. cbn beta. destruct verbose, move.
  all: repeat step.
  all: try congruence.
  all: rewrite <-?app_assoc; cbn [app]; by eexists.
Qed.

(** With documented names [main] reaches [train]. *)
Lemma documented_resolves a w :
  documented a →
  ∃ acts opt,
    run X (main X almost_current a) w
    = run X (train X almost_current (args.mode a)
               (new_records (args.mode a)) (args.height a) (args.width a)
               (channels_of_mode (args.mode a)) (args.architecture a) acts
               (args.batch_size a) (args.epochs a) (args.num_steps a)
               (args.save_step a) (args.learning_rate a) opt
               (args.verbose a) (args.name a) (args.move a)) w.
Proof.
  intros [Hopt Hacts].
  destruct (main_run X almost_current a w)
    as [(k & _ & Hk)|(acts & opt & _ & _ & Hrun)]; [exfalso|by exists acts, opt].
  destruct Hk as [(names & Hs & Hin & Hnone)|[-> Hnone]].
  - pose proof (Hacts names Hs) as Hall. rewrite Forall_forall in Hall.
    destruct (activation_names_known k (Hall k Hin)). congruence.
  - destruct (optimizer_names_known _ Hopt). congruence.
Qed.

(** C6. For every mode [m] the record names are [m + "_train.tfrecords"],
    [m + "_valid.tfrecords"], [m + "_test.tfrecords"], in this order, and a
    run binds them: [DataHolder] is constructed with no other list; when the
    names of the command line are documented, [checkpoints] is not a regular
    file and the constructor of [Config] returns, [DataHolder] is the call
    right after [Config], with this list; and every run that completes has
    made that call. *)
Theorem records_follow_mode :
  (∀ m, new_records m
        = [m +:+ "_train.tfrecords"; m +:+ "_valid.tfrecords";
           m +:+ "_test.tfrecords"])
  ∧ (∀ a w recs,
       EvDataHolder recs ∈ trace (final (run X (main X almost_current a) w)) →
       recs = [args.mode a +:+ "_train.tfrecords";
               args.mode a +:+ "_valid.tfrecords";
               args.mode a +:+ "_test.tfrecords"])
  ∧ (∀ a w,
       documented a →
       (∀ c, Fs.find (cwd w ++ ["checkpoints"]) (fs w) ≠ Some (Fs.File c)) →
       (∀ acts opt,
          completes (Config X (Demo.config_of a acts opt) (world_of_run w))
          = true) →
       ∃ acts opt post,
         trace (final (run X (main X almost_current a) w))
         = [EvExists checkpoints]
           ++ (if Fs.exists_ (cwd w ++ ["checkpoints"]) (fs w)
               then [EvRmtree checkpoints] else [])
           ++ EvConfig (Demo.config_of a acts opt)
              :: EvDataHolder [args.mode a +:+ "_train.tfrecords";
                               args.mode a +:+ "_valid.tfrecords";
                               args.mode a +:+ "_test.tfrecords"]
              :: post)
  ∧ (∀ a w st,
       run X (main X almost_current a) w = Done tt st →
       EvDataHolder [args.mode a +:+ "_train.tfrecords";
                     args.mode a +:+ "_valid.tfrecords";
                     args.mode a +:+ "_test.tfrecords"] ∈ trace st).
Proof.
  split_and!.
  - done.
  - intros a w recs (acts & opt & c & s & r & H)%main_events.
    by apply script_trace_dataholder in H as ->.
  - intros a w Hdoc Hnf HC.
    destruct (documented_resolves a w Hdoc) as (acts & opt & ->).
    exists acts, opt. specialize (HC acts opt). revert HC.
    unfold world_of_run, Fs.exists_.
    destruct (Fs.find (cwd w ++ ["checkpoints"]) (fs w)) as [[c|es]|] eqn:H.
    + by destruct (Hnf c).
    + intros HC. rewrite (train_after_clear _ _ _ _ _ _ _ _ _ _ _ _ _ _ _ _ _ _ _ es H).
      destruct (Config X _ (cleared w)) as [c w1|] eqn:HC'; [|done].
      destruct (proceed_after_config (args.mode a) (new_records (args.mode a))
                  _ (args.verbose a) (args.name a) (args.move a)
                  (mkState (cleared w) [EvExists checkpoints; EvRmtree checkpoints])
                  c w1 HC') as [post Hpost].
      exists post. exact Hpost.
    + intros HC. rewrite (train_nothing_there _ _ _ _ _ _ _ _ _ _ _ _ _ _ _ _ _ _ _ H).
      destruct (Config X _ w) as [c w1|] eqn:HC'; [|done].
      destruct (proceed_after_config (args.mode a) (new_records (args.mode a))
                  _ (args.verbose a) (args.name a) (args.move a)
                  (mkState w [EvExists checkpoints]) c w1 HC') as [post Hpost].
      exists post. exact Hpost.
  - intros a w st.
    destruct (main_run X almost_current a w)
      as [(k & -> & _)|(acts & opt & _ & _ & ->)]; [done|].
    intros Hst.
    destruct (train_trace X almost_current (args.mode a)
                (new_records (args.mode a)) (args.height a) (args.width a)
                (channels_of_mode (args.mode a)) (args.architecture a) acts
                (args.batch_size a) (args.epochs a) (args.num_steps a)
                (args.save_step a) (args.learning_rate a) opt (args.verbose a)
                (args.name a) (args.move a) w) as (s & r & _ & Hdone & _).
    rewrite (Hdone st Hst). unfold script_trace, events_before_fit.
    apply elem_of_app. left. apply list_elem_of_further.
    destruct (Fs.exists_ _ _); cbn [app].
    + do 2 apply list_elem_of_further. apply list_elem_of_here.
    + apply list_elem_of_further. apply list_elem_of_here.
Qed.

End binding.

(** ** The final layer width *)

Section construction.
Context (X : Externals).
Variable almost_current : Fs.path.

(** When the constructor of [Config] raises, the run of [train] ends there. *)
Lemma train_config_raises mode records height width channels architecture
    activations batch_size epochs num_steps save_step learning_rate optimizer
    verbose name move w e w1 :
  let kw := Build_ConfigKw height width channels architecture activations
              batch_size epochs num_steps save_step learning_rate optimizer in
  (∀ c, Fs.find (cwd w ++ ["checkpoints"]) (fs w) ≠ Some (Fs.File c)) →
  Config X kw (world_of_run w) = Raised e w1 →
  run X (train X almost_current mode records height width channels
           architecture activations batch_size epochs num_steps save_step
           learning_rate optimizer verbose name move) w
  = Raised e (mkState w1
                ([EvExists checkpoints]
                 ++ (if Fs.exists_ (cwd w ++ ["checkpoints"]) (fs w)
                     then [EvRmtree checkpoints] else [])
                 ++ [EvConfig kw])).
Proof.
  intros kw Hnf. unfold world_of_run, Fs.exists_.
  destruct (Fs.find (cwd w ++ ["checkpoints"]) (fs w)) as [[c|es]|] eqn:H.
  - by destruct (Hnf c).
  - intros HC. rewrite (train_after_clear _ _ _ _ _ _ _ _ _ _ _ _ _ _ _ _ _ _ _ es H).
    unfold proceed, build_and_fit, mbind, M_bind. rewrite call_eq.
    cbn [world trace]. fold kw. by rewrite HC.
  - intros HC. rewrite (train_nothing_there _ _ _ _ _ _ _ _ _ _ _ _ _ _ _ _ _ _ _ H).
    unfold proceed, build_and_fit, mbind, M_bind. rewrite call_eq.
    cbn [world trace]. fold kw. by rewrite HC.
Qed.

End construction.

(** The constructor of the specification rejects a final width other than
    the number of classes, and changes nothing. *)
Lemma spec_config_rejects kw (w : World Spec.SpecState) :
  last (architecture kw) ≠ Some 3 →
  ∃ msg, Spec.Config kw w = Raised (ConfigurationError msg) w.
Proof.
  intros H. unfold Spec.Config, Spec.valid_architecture, Spec.label_classes.
  rewrite (bool_decide_eq_false_2 _ H), andb_false_r.
  destruct (_ && _); by eexists.
Qed.

(** C1. The architecture of the command line reaches [Config] as it is:
    every [Config] a run of [main] constructs is given exactly
    [args.architecture].  [Config] is the first component [train]
    constructs, so with the constructor of the specification, which rejects
    a final width other than the three classes, a run whose architecture
    does not end in 3 ends at that construction: no [DataHolder], network or
    [Trainer] is constructed and [fit] is never called; with documented
    names and no regular file at [checkpoints], it ends with the
    configuration error of the constructor.  The default [[4]] is such an
    architecture. *)
Theorem final_width_checked_at_construction :
  (∀ X almost_current a w kw,
     EvConfig kw ∈ trace (final (run X (main X almost_current a) w)) →
     architecture kw = args.architecture a)
  ∧ (∀ almost_current a w ev,
       ev ∈ trace (final (run Spec.externals
                            (main Spec.externals almost_current a) w)) →
       after_config ev →
       last (args.architecture a) = Some 3)
  ∧ (∀ almost_current a w,
       last (args.architecture a) ≠ Some 3 →
       let o := run Spec.externals (main Spec.externals almost_current a) w in
       completes o = false
       ∧ (∀ v, EvFit v ∉ trace (final o))
       ∧ (documented a →
          (∀ c, Fs.find (cwd w ++ ["checkpoints"]) (fs w) ≠ Some (Fs.File c)) →
          ∃ msg acts opt,
            o = Raised (ConfigurationError msg)
                  (mkState (world_of_run w)
                     ([EvExists checkpoints]
                      ++ (if Fs.exists_ (cwd w ++ ["checkpoints"]) (fs w)
                          then [EvRmtree checkpoints] else [])
                      ++ [EvConfig (Demo.config_of a acts opt)]))))
  ∧ last (args.architecture default_args) = Some 4.
Proof.
  assert (∀ almost_current a w,
            last (args.architecture a) ≠ Some 3 →
            let o := run Spec.externals
                       (main Spec.externals almost_current a) w in
            completes o = false
            ∧ (∀ ev, ev ∈ trace (final o) → ¬ after_config ev)
            ∧ (documented a →
               (∀ c, Fs.find (cwd w ++ ["checkpoints"]) (fs w)
                     ≠ Some (Fs.File c)) →
               ∃ msg acts opt,
                 o = Raised (ConfigurationError msg)
                       (mkState (world_of_run w)
                          ([EvExists checkpoints]
                           ++ (if Fs.exists_ (cwd w ++ ["checkpoints"]) (fs w)
                               then [EvRmtree checkpoints] else [])
                           ++ [EvConfig (Demo.config_of a acts opt)]))))
    as Hrej.
  { intros almost_current a w Hlast o.
    assert (∀ acts opt,
              let o' := run Spec.externals
                          (train Spec.externals almost_current (args.mode a)
                             (new_records (args.mode a)) (args.height a)
                             (args.width a) (channels_of_mode (args.mode a))
                             (args.architecture a) acts (args.batch_size a)
                             (args.epochs a) (args.num_steps a)
                             (args.save_step a) (args.learning_rate a) opt
                             (args.verbose a) (args.name a) (args.move a)) w in
              completes o' = false
              ∧ (∀ ev, ev ∈ trace (final o') → ¬ after_config ev)
              ∧ ((∀ c, Fs.find (cwd w ++ ["checkpoints"]) (fs w)
                       ≠ Some (Fs.File c)) →
                 ∃ msg,
                   o' = Raised (ConfigurationError msg)
                          (mkState (world_of_run w)
                             ([EvExists checkpoints]
                              ++ (if Fs.exists_ (cwd w ++ ["checkpoints"]) (fs w)
                                  then [EvRmtree checkpoints] else [])
                              ++ [EvConfig (Demo.config_of a acts opt)]))))
      as Htrain.
    { intros acts opt o'.
      destruct (spec_config_rejects (Demo.config_of a acts opt) (world_of_run w)
                  Hlast) as [msg Hmsg].
      assert ((∃ c, Fs.find (cwd w ++ ["checkpoints"]) (fs w)
                    = Some (Fs.File c))
              ∨ (∀ c, Fs.find (cwd w ++ ["checkpoints"]) (fs w)
                      ≠ Some (Fs.File c))) as [[c Hc]|Hnf'].
      { destruct (Fs.find _ _) as [[c|es]|]; [left; by exists c|by right..]. }
      - subst o'.
        rewrite (train_file_there Spec.externals almost_current _ _ _ _ _ _ _ _
                   _ _ _ _ _ _ _ _ w c Hc).
        split_and!; [done| |intros Hnf; by destruct (Hnf c)].
        intros ev Hin. cbn [final trace] in Hin.
        in_cases Hin; subst ev; by intros [].
      - pose proof (train_config_raises Spec.externals almost_current
                      (args.mode a) (new_records (args.mode a)) (args.height a)
                      (args.width a) (channels_of_mode (args.mode a))
                      (args.architecture a) acts (args.batch_size a)
                      (args.epochs a) (args.num_steps a) (args.save_step a)
                      (args.learning_rate a) opt (args.verbose a)
                      (args.name a) (args.move a) w _ _ Hnf' Hmsg) as Hrun.
        subst o'. rewrite Hrun. split_and!; [done| |by exists msg].
        intros ev Hin. cbn [final trace] in Hin.
        destruct (Fs.exists_ _ _); cbn [app] in Hin.
        all: in_cases Hin; subst ev; by intros []. }
    split_and!.
    - subst o.
      destruct (main_run Spec.externals almost_current a w)
        as [(k & -> & _)|(acts & opt & _ & _ & ->)]; [done|].
      apply Htrain.
    - subst o.
      destruct (main_run Spec.externals almost_current a w)
        as [(k & -> & _)|(acts & opt & _ & _ & ->)].
      + intros ev Hin. by apply elem_of_nil in Hin.
      + apply Htrain.
    - intros Hdoc Hnf. subst o.
      destruct (documented_resolves Spec.externals almost_current a w Hdoc)
        as (acts & opt & ->).
      destruct (Htrain acts opt) as (_ & _ & Hmsg).
      destruct (Hmsg Hnf) as [msg ->]. by exists msg, acts, opt. }
  split_and!.
  - intros X almost_current a w kw. apply architecture_passed_on.
  - intros almost_current a w ev Hin Hafter.
    destruct (decide (last (args.architecture a) = Some 3)) as [|Hne]; [done|].
    destruct (Hrej almost_current a w Hne) as (_ & Hnone & _).
    by destruct (Hnone ev Hin).
  - intros almost_current a w Hne o.
    destruct (Hrej almost_current a w Hne) as (Hc & Hnone & Hmsg).
    split_and!; [done| |done].
    intros v Hin. by apply (Hnone _ Hin).
  - done.
Qed.

(** ** Where an exception comes from *)

Lemma fs_call_raised {S} f pn (w w' : World S) e :
  fs_call f pn w = Raised e w' →
  w' = w ∧ f (Fs.resolve (cwd w) pn) (fs w) = inl e.
Proof.
  unfold fs_call. destruct (f _ _) as [e'|r] eqn:H; [|done]. by intros [= <- <-].
Qed.

Section exceptions.
Context (X : Externals).
Variable almost_current : Fs.path.
Variables (mode : string) (records : list string) (height width channels : Z)
  (architecture : list Z) (activations : option (list activation_fn))
  (batch_size epochs num_steps save_step : Z) (learning_rate : float)
  (optimizer : optimizer_cls) (verbose : bool) (name : string) (move : bool).

Local Abbreviation the_train :=
  (train X almost_current mode records height width channels architecture
     activations batch_size epochs num_steps save_step learning_rate
     optimizer verbose name move).

(** X17. [train] raises no exception of its own.  The exception a run of
    [train] ends with is the one its last call raised: the trace ends with
    the call of a component that raised it and left the final world; or with
    [predict], after which the reshape of the labels raised it; or with
    [shutil.rmtree], which failed with it in the world the run started in;
    or with [shutil.move], which failed with it in the world [fit] or
    [plotconfusion] left. *)
Theorem train_invents_no_exception w e st :
  run X the_train w = Raised e st → raised_by_last_call X w e st.
Proof.
  unfold raised_by_last_call. unfold_script. cbn beta. destruct verbose, move.
  all: repeat step.
  all: intros [= <- <-].
  all: repeat match goal with u : unit |- _ => destruct u end.
  all: eexists; (split; [reflexivity|]); cbn beta iota delta [world trace].
  all: first
    [ match goal with
      | H : fs_call Fs.rmtree _ _ = Raised _ _ |- _ =>
          apply fs_call_raised in H as [-> H]; by split
      | H : fs_call _ _ _ = Raised _ _ |- _ =>
          apply fs_call_raised in H as [-> H];
          split; [|exact H];
          first [ left; do 3 eexists; eassumption
                | right; do 6 eexists; eassumption ]
      end
    | right; do 5 eexists; split; eassumption
    | left; do 3 eexists; eassumption
    | repeat eexists; eassumption ].
Qed.

End exceptions.

(** ** The further properties at work on concrete runs *)

Ltac in_list :=
  repeat first [apply list_elem_of_here | apply list_elem_of_further].

Ltac not_prefix :=
  let k := fresh "k" in
  let Hk := fresh "Hk" in
  intros [k Hk]; vm_compute in Hk; discriminate Hk.

Lemma idle_quiet : quiet idle.
Proof. by split. Qed.


Lemma nothing_to_clear_witness :
  Fs.find (Demo.workdir ++ ["checkpoints"]) (fs Demo.world) = None
  ∧ ∀ p, EvRmtree p
         ∉ trace (final (run Spec.externals (Demo.train_bin false false)
                           Demo.world)).
Proof.
  assert (Fs.find (Demo.workdir ++ ["checkpoints"]) (fs Demo.world) = None)
    as H by (vm_compute; reflexivity).
  split; [exact H|].
  exact (proj2 (nothing_to_clear Spec.externals Demo.script "bin"
                  (new_records "bin") 90 160 1 [8; 3] (Some [relu]) 32 1 10 5
                  0.02%float GradientDescentOptimizer false "Confusion_Matrix"
                  false Demo.world H)).
Defined.

Lemma checkpoints_file_stops_run_witness :
  Fs.find (Demo.workdir ++ ["checkpoints"]) (fs Worlds.file_world)
  = Some (Fs.File (Fs.Blob "notes"))
  ∧ run Spec.externals (Demo.train_bin false false) Worlds.file_world
    = Raised (OSError (Demo.workdir ++ ["checkpoints"]))
             (mkState Worlds.file_world
                [EvExists checkpoints; EvRmtree checkpoints]).
Proof.
  assert (Fs.find (Demo.workdir ++ ["checkpoints"]) (fs Worlds.file_world)
          = Some (Fs.File (Fs.Blob "notes"))) as H by (vm_compute; reflexivity).
  split; [exact H|].
  exact (checkpoints_file_stops_run Spec.externals Demo.script "bin"
           (new_records "bin") 90 160 1 [8; 3] (Some [relu]) 32 1 10 5
           0.02%float GradientDescentOptimizer false "Confusion_Matrix"
           false Worlds.file_world (Fs.Blob "notes") H).
Defined.

Lemma clearing_spares_the_rest_witness :
  let o := clear_checkpoints Spec.externals (mkState Demo.stale_world []) in
  o = Done tt (final o)
  ∧ Fs.find (Demo.workdir ++ ["checkpoints"; "model-7"]) (fs (world (final o)))
    = None
  ∧ Fs.find (Demo.workdir ++ ["bin_train.tfrecords"]) (fs (world (final o)))
    = Fs.find (Demo.workdir ++ ["bin_train.tfrecords"]) (fs Demo.stale_world).
Proof.
  intros o.
  assert (o = Done tt (final o)) as H by (by apply completes_Done).
  split; [exact H|].
  destruct (clearing_spares_the_rest Spec.externals Demo.stale_world []
              (final o) H) as (_ & _ & Hbelow & Hframe & _).
  split.
  - apply Hbelow. by exists ["model-7"].
  - apply Hframe; not_prefix.
Defined.

Lemma first_unknown_activation_is_reported_witness :
  args.activations Worlds.with_swish = Some (["relu"] ++ "swish" :: ["tanh"])
  ∧ run Spec.externals (main Spec.externals Demo.script Worlds.with_swish)
        Demo.stale_world
    = Raised (KeyError "swish") (mkState Demo.stale_world []).
Proof.
  split; [reflexivity|].
  apply (first_unknown_activation_is_reported Spec.externals Demo.script
           Worlds.with_swish Demo.stale_world ["relu"] "swish" ["tanh"]).
  - reflexivity.
  - constructor; [in_list|constructor].
  - intros H. unfold activation_names in H. in_cases H; discriminate.
Defined.

Lemma with_tanh_documented : documented Worlds.with_tanh.
Proof.
  split; [in_list|]. intros names [= <-]. constructor; [in_list|constructor].
Qed.

Lemma documented_names_reach_train_witness :
  ∃ acts opt,
    resolved (args.activations Worlds.with_tanh) acts
    ∧ optimizer_dict !! "Adam" = Some opt
    ∧ run Spec.externals (main Spec.externals Demo.script Worlds.with_tanh)
          Demo.world
      = run Spec.externals
          (train Spec.externals Demo.script "bin" (new_records "bin") 90 160
             1 [8; 3] acts 32 1 10 5 0.02%float opt false "Confusion_Matrix"
             false)
          Demo.world
    ∧ ∃ evs,
        trace (final (run Spec.externals
                        (main Spec.externals Demo.script Worlds.with_tanh)
                        Demo.world))
        = EvExists checkpoints :: evs.
Proof.
  exact (documented_names_reach_train Spec.externals Demo.script
           Worlds.with_tanh Demo.world with_tanh_documented).
Defined.

Lemma config_receives_the_namespace_witness :
  let kw := Demo.config_of Worlds.with_tanh (Some [tanh]) AdamOptimizer in
  EvConfig kw
  ∈ trace (final (run Spec.externals
                    (main Spec.externals Demo.script Worlds.with_tanh)
                    Demo.world))
  ∧ resolved (Some ["tanh"]) (activations kw)
  ∧ optimizer_dict !! "Adam" = Some (optimizer kw).
Proof.
  intros kw.
  assert (EvConfig kw
          ∈ trace (final (run Spec.externals
                            (main Spec.externals Demo.script Worlds.with_tanh)
                            Demo.world))) as H by in_trace 1%nat.
  split; [exact H|].
  destruct (config_receives_the_namespace Spec.externals Demo.script
              Worlds.with_tanh Demo.world kw H)
    as (_ & _ & _ & _ & Hr & _ & _ & _ & _ & _ & Ho).
  split; [exact Hr|exact Ho].
Defined.

Lemma record_names_are_distinct_witness :
  NoDup (new_records "bin")
  ∧ ("gray" : string) = "gray".
Proof.
  destruct record_names_are_distinct as [Hnd Hinj].
  split; [exact (Hnd "bin")|].
  apply (Hinj "gray" "gray" "gray_valid.tfrecords"); vm_compute; in_list.
Defined.

Lemma relocation_comes_last_witness :
  let t := trace (final (run Spec.externals (Demo.train_bin false true)
                           Demo.world)) in
  EvMove checkpoints (Fs.join (parentdir Demo.script) "checkpoints") ∈ t
  ∧ last t
    = Some (EvMove checkpoints (Fs.join (parentdir Demo.script) "checkpoints"))
  ∧ EvFit false ∈ t.
Proof.
  intros t.
  assert (EvMove checkpoints (Fs.join (parentdir Demo.script) "checkpoints")
          ∈ t) as H by in_trace 10%nat.
  split; [exact H|].
  destruct (relocation_comes_last Spec.externals Demo.script "bin"
              (new_records "bin") 90 160 1 [8; 3] (Some [relu]) 32 1 10 5
              0.02%float GradientDescentOptimizer false "Confusion_Matrix"
              true Demo.world _ _ H) as (_ & _ & _ & Hlast & Hfit & _).
  split; [exact Hlast|exact Hfit].
Defined.

Lemma relocation_without_checkpoints_raises_witness :
  Fs.find (Demo.workdir ++ ["checkpoints"]) (fs Demo.world) = None
  ∧ ∃ e,
      relocate Spec.externals Demo.script true (mkState Demo.world [])
      = Raised e
          (mkState Demo.world
             [EvMove checkpoints (Fs.join (parentdir Demo.script) "checkpoints")]).
Proof.
  assert (Fs.find (Demo.workdir ++ ["checkpoints"]) (fs Demo.world) = None)
    as H by (vm_compute; reflexivity).
  split; [exact H|].
  exact (relocation_without_checkpoints_raises Spec.externals Demo.script
           (mkState Demo.world []) H).
Defined.

Lemma relocation_nests_in_existing_directory_witness :
  let st := mkState Demo.both_world [] in
  let dst := parentdir Demo.script ++ ["checkpoints"] in
  ∃ r',
    relocate Spec.externals Demo.script true st
    = Done tt (mkState (with_fs Demo.both_world r')
                 [EvMove checkpoints
                    (Fs.join (parentdir Demo.script) "checkpoints")])
    ∧ Fs.find (dst ++ ["checkpoints"]) r' = Some (Fs.Dir Demo.this_run)
    ∧ Fs.find (Demo.workdir ++ ["checkpoints"]) r' = None
    ∧ Fs.isdir dst r' = true.
Proof.
  intros st dst.
  apply (relocation_nests_in_existing_directory Spec.externals Demo.script st
           Demo.this_run Demo.old_run).
  - vm_compute; reflexivity.
  - vm_compute; reflexivity.
  - intros H. vm_compute in H. discriminate H.
  - vm_compute; reflexivity.
  - not_prefix.
Defined.

Lemma relocation_refused_when_nested_exists_witness :
  let dst := parentdir Demo.script ++ ["checkpoints"] in
  Fs.exists_ (dst ++ ["checkpoints"]) (fs Worlds.nested_world) = true
  ∧ relocate Spec.externals Demo.script true (mkState Worlds.nested_world [])
    = Raised (ShutilError (dst ++ ["checkpoints"]))
        (mkState Worlds.nested_world
           [EvMove checkpoints (Fs.join (parentdir Demo.script) "checkpoints")]).
Proof.
  intros dst.
  assert (Fs.exists_ (dst ++ ["checkpoints"]) (fs Worlds.nested_world) = true)
    as H by (vm_compute; reflexivity).
  split; [exact H|].
  apply (relocation_refused_when_nested_exists Spec.externals Demo.script
           (mkState Worlds.nested_world [])
           (<["checkpoints" := Fs.Dir Demo.old_run]> Demo.old_run)).
  - vm_compute; reflexivity.
  - intros H'. vm_compute in H'. discriminate H'.
  - exact H.
Defined.

Lemma relocation_onto_itself_witness :
  cwd Worlds.parent_world = parentdir Demo.script
  ∧ relocate Spec.externals Demo.script true (mkState Worlds.parent_world [])
    = Done tt
        (mkState Worlds.parent_world
           [EvMove checkpoints (Fs.join (parentdir Demo.script) "checkpoints")]).
Proof.
  split; [reflexivity|].
  apply (relocation_onto_itself Spec.externals Demo.script
           (mkState Worlds.parent_world []) Demo.old_run).
  - reflexivity.
  - vm_compute; reflexivity.
Defined.

Lemma relocation_from_script_directory_witness :
  let st := final (run Spec.externals (Demo.train_bin false false) Demo.world) in
  let p := ["home"; "pi"; "car"] in
  ∃ r',
    relocate Spec.externals Demo.script true st
    = Done tt (mkState (with_fs (world st) r')
                 (trace st ++ [EvMove checkpoints
                                 (Fs.join (parentdir Demo.script)
                                          "checkpoints")]))
    ∧ Fs.find (p ++ ["checkpoints"]) r'
      = Some (Fs.Dir (Spec.snapshots Demo.kw_bin))
    ∧ Fs.find (p ++ ["ml_training"; "checkpoints"]) r' = None.
Proof.
  intros st p.
  apply (relocation_from_script_directory Spec.externals Demo.script st p
           "ml_training" "train.py" (Spec.snapshots Demo.kw_bin)).
  - reflexivity.
  - vm_compute; reflexivity.
  - vm_compute; reflexivity.
  - vm_compute; reflexivity.
Defined.

Lemma train_writes_nothing_itself_witness :
  let o := run idle (Worlds.train_idle true) (idle_world Demo.stale_world) in
  cwd (world (final o)) = Demo.workdir
  ∧ fs (world (final o))
    = Fs.remove (Demo.workdir ++ ["checkpoints"]) (fs Demo.stale_world).
Proof.
  exact (train_writes_nothing_itself idle Demo.script "bin"
           (new_records "bin") 90 160 1 [8; 3] (Some [relu]) 32 1 10 5
           0.02%float GradientDescentOptimizer true "Confusion_Matrix" false
           (idle_world Demo.stale_world) idle_quiet eq_refl).
Defined.


Lemma validation_record_comes_from_data_holder_witness :
  let t := trace (final (run Spec.externals (Demo.train_bin true false)
                           Demo.stale_world)) in
  EvReconstruct "bin_valid.tfrecords" ∈ t
  ∧ ∃ d w1 w2,
      get_valid_tfrecord Spec.externals d w1 = Done "bin_valid.tfrecords" w2.
Proof.
  intros t.
  assert (EvReconstruct "bin_valid.tfrecords" ∈ t) as H by in_trace 12%nat.
  split; [exact H|].
  exact (proj2 (validation_record_comes_from_data_holder Spec.externals
                  Demo.script "bin" (new_records "bin") 90 160 1 [8; 3]
                  (Some [relu]) 32 1 10 5 0.02%float GradientDescentOptimizer
                  true "Confusion_Matrix" false Demo.stale_world _ H)).
Defined.

Lemma default_args_documented : documented default_args.
Proof. split; [in_list|]. by intros names [=]. Qed.

Lemma with_pure_documented : documented Demo.with_pure.
Proof. split; [in_list|]. by intros names [=]. Qed.

Lemma final_width_checked_at_construction_witness :
  let o := run Spec.externals (main Spec.externals Demo.script default_args)
               Demo.world in
  last (args.architecture default_args) ≠ Some 3
  ∧ completes o = false
  ∧ (∀ v, EvFit v ∉ trace (final o))
  ∧ ∃ msg acts opt,
      o = Raised (ConfigurationError msg)
            (mkState Demo.world
               [EvExists checkpoints;
                EvConfig (Demo.config_of default_args acts opt)]).
Proof.
  intros o.
  assert (last (args.architecture default_args) ≠ Some 3) as H by discriminate.
  assert (∀ c, Fs.find (cwd Demo.world ++ ["checkpoints"]) (fs Demo.world)
               ≠ Some (Fs.File c)) as Hnf.
  { intros c Hc. vm_compute in Hc. discriminate Hc. }
  destruct (proj1 (proj2 (proj2 final_width_checked_at_construction))
              Demo.script default_args Demo.world H) as (Hc & Hfit & Hmsg).
  split; [exact H|]. split; [exact Hc|]. split; [exact Hfit|].
  exact (Hmsg default_args_documented Hnf).
Defined.

Lemma records_follow_mode_witness :
  let t := trace (final (run Spec.externals
                           (main Spec.externals Demo.script Demo.with_pure)
                           Demo.world)) in
  new_records "aug"
  = ["aug_train.tfrecords"; "aug_valid.tfrecords"; "aug_test.tfrecords"]
  ∧ ∃ acts opt post,
      t = EvExists checkpoints
          :: EvConfig (Demo.config_of Demo.with_pure acts opt)
          :: EvDataHolder ["pure_train.tfrecords"; "pure_valid.tfrecords";
                           "pure_test.tfrecords"]
          :: post.
Proof.
  intros t.
  pose proof (records_follow_mode Spec.externals Demo.script)
    as (Hm & _ & Hrun & _).
  split; [exact (Hm "aug")|].
  assert (∀ c, Fs.find (cwd Demo.world ++ ["checkpoints"]) (fs Demo.world)
               ≠ Some (Fs.File c)) as Hnf.
  { intros c Hc. vm_compute in Hc. discriminate Hc. }
  assert (∀ acts opt,
            completes (Config Spec.externals
                         (Demo.config_of Demo.with_pure acts opt)
                         (world_of_run Demo.world)) = true) as HC.
  { intros acts opt. vm_compute. reflexivity. }
  exact (Hrun Demo.with_pure Demo.world with_pure_documented Hnf HC).
Defined.

Lemma status_printed_before_fit_witness :
  let w := Demo.stale_world in
  let t := trace (final (run Spec.externals (Demo.train_bin true false) w)) in
  t = take 10 t ++ EvFit true :: drop 11 t
  ∧ ∃ config w1 data w2 graph w3 network w4 trainer w5 status w6 pre',
      Config Spec.externals Demo.kw_bin (world_of_run w) = Done config w1
      ∧ DataHolder Spec.externals config (new_records "bin") w1 = Done data w2
      ∧ tf_Graph Spec.externals w2 = Done graph w3
      ∧ DFN Spec.externals graph config w3 = Done network w4
      ∧ Trainer Spec.externals graph config network data w4 = Done trainer w5
      ∧ get_status Spec.externals config w5 = Done status w6
      ∧ take 10 t
        = pre'
          ++ [EvPrint (line_feed +:+ "Training in the " +:+ "bin"
                       +:+ " data" +:+ line_feed);
              EvGetStatus;
              EvPrint ("params:" +:+ line_feed +:+ status +:+ line_feed)].
Proof.
  intros w t.
  assert (t = take 10 t ++ EvFit true :: drop 11 t) as H
    by (vm_compute; reflexivity).
  split; [exact H|].
  exact (proj2 (proj2 (status_printed_before_fit Spec.externals Demo.script
                  "bin" (new_records "bin") 90 160 1 [8; 3] (Some [relu]) 32 1
                  10 5 0.02%float GradientDescentOptimizer true
                  "Confusion_Matrix" false w (take 10 t) true (drop 11 t) H))).
Defined.

Lemma train_invents_no_exception_witness :
  let o := run Spec.externals (Demo.train_bin false true) Worlds.nested_world in
  let dst := parentdir Demo.script ++ ["checkpoints"; "checkpoints"] in
  o = Raised (ShutilError dst) (final o)
  ∧ raised_by_last_call Spec.externals Worlds.nested_world (ShutilError dst)
      (final o).
Proof.
  intros o dst.
  assert (o = Raised (ShutilError dst) (final o)) as H
    by (vm_compute; reflexivity).
  split; [exact H|].
  exact (train_invents_no_exception Spec.externals Demo.script "bin"
           (new_records "bin") 90 160 1 [8; 3] (Some [relu]) 32 1 10 5
           0.02%float GradientDescentOptimizer false "Confusion_Matrix" true
           Worlds.nested_world (ShutilError dst) (final o) H).
Defined.
